(** * Congestion control of the RFB transport (common/rfb/Congestion.cxx)

    A shallow embedding of the class [rfb::Congestion]: a delay based
    (TCP Vegas like) congestion controller fed by byte positions and by
    ping/pong round trips.  Every [unsigned] of the C++ code is a [Z] in
    [0, 2^32) with the wrap-around written out; a division by zero and a
    failed [assert] are faults of an error monad; every call of
    [gettimeofday] is an explicit clock reading passed to the operation. *)

From Stdlib Require Import ZArith List Bool Lia.
Import ListNotations.
Open Scope Z_scope.

(** ** Machine arithmetic *)

Definition U32_MOD : Z := 4294967296.

(** Conversion of a mathematical integer to [unsigned]. *)
Definition wrap (z : Z) : Z := z mod U32_MOD.

(** Conversion of an [unsigned] to [int] (the return type of
    [getUncongestedETA]). *)
Definition to_int (z : Z) : Z := if z <? 2147483648 then z else z - U32_MOD.

(** [(unsigned)-1], the marker of a round trip time that is not known. *)
Definition UNSET : Z := 4294967295.

(** ** Faults *)

Inductive fault : Type :=
| DivisionByZero
| AssertionFailed.

Inductive result (A : Type) : Type :=
| Ok (a : A)
| Fault (f : fault).

Arguments Ok {A} a.
Arguments Fault {A} f.

Definition bind {A B : Type} (r : result A) (k : A -> result B) : result B :=
  match r with
  | Ok a => k a
  | Fault f => Fault f
  end.

Notation "x <- e ;; k" := (bind e (fun x => k))
  (at level 61, e at next level, right associativity).

(** Unsigned division [a / b] of the C++ code. *)
Definition udiv (a b : Z) : result Z :=
  if b =? 0 then Fault DivisionByZero else Ok (a / b).

(** [assert(b)]. *)
Definition assert (b : bool) : result unit :=
  if b then Ok tt else Fault AssertionFailed.

(** ** Helpers of rfb/util.h *)

(** Modelled from the spec: the declarations of rfb/util.h ([msBetween],
    [msSince], [isBefore], [__rfbmax], [__rfbmin]) are not part of the
    sources at hand.  The spec treats time as a millisecond counter, so a
    time stamp is an integer number of milliseconds, [msBetween first
    second] is the unsigned number of milliseconds from [first] to [second],
    and [isBefore first second] is [first < second]. *)
Definition msBetween (first second : Z) : Z := wrap (second - first).

(** Modelled from the spec: see [msBetween]. *)
Definition isBefore (first second : Z) : bool := first <? second.

(** Modelled from the spec: the macro [__rfbmax] of rfb/util.h, the larger
    of its two arguments. *)
Definition rfbmax (a b : Z) : Z := if b <? a then a else b.

(** Modelled from the spec: the macro [__rfbmin] of rfb/util.h, the smaller
    of its two arguments. *)
Definition rfbmin (a b : Z) : Z := if a <? b then a else b.

(** ** Constants *)

Definition INITIAL_WINDOW : Z := 16384.
Definition MINIMUM_WINDOW : Z := 4096.
Definition MAXIMUM_WINDOW : Z := 4194304.

(** ** Data *)

(** [struct RTTInfo]: what is recorded when a ping is sent. *)
Record RTTInfo : Type := mkRTTInfo {
  tv : Z;
  pos : Z;
  extra : Z;
  congested : bool
}.

(** The members of [class Congestion]. *)
Record CongestionState : Type := mkCongestion {
  lastPosition : Z;
  extraBuffer : Z;
  lastUpdate : Z;
  lastSent : Z;
  baseRTT : Z;
  congWindow : Z;
  measurements : Z;
  minRTT : Z;
  minCongestedRTT : Z;
  lastPong : RTTInfo;
  lastPongArrival : Z;
  lastAdjustment : Z;
  pings : list RTTInfo
}.

Definition set_lastPosition (v : Z) (c : CongestionState) : CongestionState :=
  mkCongestion v (extraBuffer c) (lastUpdate c) (lastSent c) (baseRTT c)
    (congWindow c) (measurements c) (minRTT c) (minCongestedRTT c)
    (lastPong c) (lastPongArrival c) (lastAdjustment c) (pings c).

Definition set_extraBuffer (v : Z) (c : CongestionState) : CongestionState :=
  mkCongestion (lastPosition c) v (lastUpdate c) (lastSent c) (baseRTT c)
    (congWindow c) (measurements c) (minRTT c) (minCongestedRTT c)
    (lastPong c) (lastPongArrival c) (lastAdjustment c) (pings c).

Definition set_lastUpdate (v : Z) (c : CongestionState) : CongestionState :=
  mkCongestion (lastPosition c) (extraBuffer c) v (lastSent c) (baseRTT c)
    (congWindow c) (measurements c) (minRTT c) (minCongestedRTT c)
    (lastPong c) (lastPongArrival c) (lastAdjustment c) (pings c).

Definition set_lastSent (v : Z) (c : CongestionState) : CongestionState :=
  mkCongestion (lastPosition c) (extraBuffer c) (lastUpdate c) v (baseRTT c)
    (congWindow c) (measurements c) (minRTT c) (minCongestedRTT c)
    (lastPong c) (lastPongArrival c) (lastAdjustment c) (pings c).

Definition set_baseRTT (v : Z) (c : CongestionState) : CongestionState :=
  mkCongestion (lastPosition c) (extraBuffer c) (lastUpdate c) (lastSent c) v
    (congWindow c) (measurements c) (minRTT c) (minCongestedRTT c)
    (lastPong c) (lastPongArrival c) (lastAdjustment c) (pings c).

Definition set_congWindow (v : Z) (c : CongestionState) : CongestionState :=
  mkCongestion (lastPosition c) (extraBuffer c) (lastUpdate c) (lastSent c)
    (baseRTT c) v (measurements c) (minRTT c) (minCongestedRTT c)
    (lastPong c) (lastPongArrival c) (lastAdjustment c) (pings c).

Definition set_measurements (v : Z) (c : CongestionState) : CongestionState :=
  mkCongestion (lastPosition c) (extraBuffer c) (lastUpdate c) (lastSent c)
    (baseRTT c) (congWindow c) v (minRTT c) (minCongestedRTT c)
    (lastPong c) (lastPongArrival c) (lastAdjustment c) (pings c).

Definition set_minRTT (v : Z) (c : CongestionState) : CongestionState :=
  mkCongestion (lastPosition c) (extraBuffer c) (lastUpdate c) (lastSent c)
    (baseRTT c) (congWindow c) (measurements c) v (minCongestedRTT c)
    (lastPong c) (lastPongArrival c) (lastAdjustment c) (pings c).

Definition set_minCongestedRTT (v : Z) (c : CongestionState)
  : CongestionState :=
  mkCongestion (lastPosition c) (extraBuffer c) (lastUpdate c) (lastSent c)
    (baseRTT c) (congWindow c) (measurements c) (minRTT c) v
    (lastPong c) (lastPongArrival c) (lastAdjustment c) (pings c).

Definition set_lastPong (v : RTTInfo) (c : CongestionState)
  : CongestionState :=
  mkCongestion (lastPosition c) (extraBuffer c) (lastUpdate c) (lastSent c)
    (baseRTT c) (congWindow c) (measurements c) (minRTT c)
    (minCongestedRTT c) v (lastPongArrival c) (lastAdjustment c) (pings c).

Definition set_lastPongArrival (v : Z) (c : CongestionState)
  : CongestionState :=
  mkCongestion (lastPosition c) (extraBuffer c) (lastUpdate c) (lastSent c)
    (baseRTT c) (congWindow c) (measurements c) (minRTT c)
    (minCongestedRTT c) (lastPong c) v (lastAdjustment c) (pings c).

Definition set_lastAdjustment (v : Z) (c : CongestionState)
  : CongestionState :=
  mkCongestion (lastPosition c) (extraBuffer c) (lastUpdate c) (lastSent c)
    (baseRTT c) (congWindow c) (measurements c) (minRTT c)
    (minCongestedRTT c) (lastPong c) (lastPongArrival c) v (pings c).

Definition set_pings (v : list RTTInfo) (c : CongestionState)
  : CongestionState :=
  mkCongestion (lastPosition c) (extraBuffer c) (lastUpdate c) (lastSent c)
    (baseRTT c) (congWindow c) (measurements c) (minRTT c)
    (minCongestedRTT c) (lastPong c) (lastPongArrival c) (lastAdjustment c) v.

(** ** Operations *)

(** [Congestion::Congestion()].  The four arguments are the readings of the
    clock stored in [lastUpdate], [lastSent], [lastPongArrival] and
    [lastAdjustment]; [lastPong] is zeroed by [memset]. *)
Definition Congestion (t_update t_sent t_pong t_adjust : Z)
  : CongestionState :=
  {| lastPosition := 0;
     extraBuffer := 0;
     lastUpdate := t_update;
     lastSent := t_sent;
     baseRTT := UNSET;
     congWindow := INITIAL_WINDOW;
     measurements := 0;
     minRTT := UNSET;
     minCongestedRTT := UNSET;
     lastPong := mkRTTInfo 0 0 0 false;
     lastPongArrival := t_pong;
     lastAdjustment := t_adjust;
     pings := [] |}.

(** The test of [updatePosition] that decides whether the connection was
    idle for too long, evaluated after [lastSent] was refreshed. *)
Definition idleTooLong (now : Z) (c : CongestionState) : bool :=
  rfbmax (wrap (baseRTT c * 2)) 100 <? msBetween (lastSent c) now.

(** The body of the idle branch of [updatePosition]; [now_adjust] is the
    reading of the clock stored in [lastAdjustment]. *)
Definition idleReset (now_adjust : Z) (c : CongestionState)
  : CongestionState :=
  let c := set_congWindow (rfbmin INITIAL_WINDOW (congWindow c)) c in
  let c := set_baseRTT UNSET c in
  let c := set_measurements 0 c in
  let c := set_lastAdjustment now_adjust c in
  let c := set_minCongestedRTT UNSET c in
  set_minRTT UNSET c.

(** [Congestion::updatePosition(pos)]; [now] is the clock read on entry. *)
Definition updatePosition (pos now now_adjust : Z) (c : CongestionState)
  : result CongestionState :=
  let delta := wrap (pos - lastPosition c) in
  let c := if (0 <? delta) || (0 <? extraBuffer c)
           then set_lastSent now c else c in
  let c := if idleTooLong now c then idleReset now_adjust c else c in
  c <- (if baseRTT c =? UNSET then Ok c
        else
          let eb := wrap (extraBuffer c + delta) in
          consumed <- udiv (wrap (msBetween (lastUpdate c) now * congWindow c))
                           (baseRTT c) ;;
          Ok (set_extraBuffer (if eb <? consumed then 0 else eb - consumed) c)) ;;
  Ok (set_lastUpdate now (set_lastPosition pos c)).

(** [Congestion::getExtraBuffer()]; [now] is the clock read by [msSince]. *)
Definition getExtraBuffer (now : Z) (c : CongestionState) : result Z :=
  if baseRTT c =? UNSET then Ok 0
  else
    let elapsed := msBetween (lastUpdate c) now in
    consumed <- udiv (wrap (elapsed * congWindow c)) (baseRTT c) ;;
    Ok (if extraBuffer c <=? consumed then 0 else extraBuffer c - consumed).

(** [Congestion::getInFlight()]; [now] is the clock read by [msSince]. *)
Definition getInFlight (now : Z) (c : CongestionState) : result Z :=
  if lastPosition c =? pos (lastPong c) then Ok 0
  else if baseRTT c =? UNSET then
    match pings c with
    | nextPong :: _ => Ok (wrap (lastPosition c - pos nextPong))
    | [] => Ok 0
    end
  else
    acked <-
      match pings c with
      | nextPong :: _ =>
          let etaNext := msBetween (tv (lastPong c)) (tv nextPong) in
          delay <- udiv (wrap (extra nextPong * baseRTT c)) (congWindow c) ;;
          let etaNext := wrap (etaNext + delay) in
          delay <- udiv (wrap (extra (lastPong c) * baseRTT c))
                        (congWindow c) ;;
          let etaNext := if etaNext <=? delay then 0 else etaNext - delay in
          let elapsed := msBetween (lastPongArrival c) now in
          if etaNext <=? elapsed then Ok (pos nextPong)
          else
            q <- udiv (wrap (wrap (pos nextPong - pos (lastPong c)) * elapsed))
                      etaNext ;;
            Ok (wrap (pos (lastPong c) + q))
      | [] =>
          let elapsed := msBetween (lastUpdate c) now in
          acked <- (if elapsed <=? baseRTT c then Ok 0
                    else udiv (wrap (wrap (elapsed - baseRTT c) * congWindow c))
                              (baseRTT c)) ;;
          let acked := if extraBuffer c <? acked then extraBuffer c
                       else acked in
          Ok (wrap (wrap (lastPosition c - extraBuffer c) + acked))
      end ;;
    Ok (wrap (lastPosition c - acked)).

(** [Congestion::isCongested()]. *)
Definition isCongested (now : Z) (c : CongestionState) : result bool :=
  inFlight <- getInFlight now c ;;
  Ok (negb (inFlight <? congWindow c)).

(** [Congestion::sentPing()].  The clock is read three times: for the time
    stamp of the ping, in [getExtraBuffer] and in [isCongested]. *)
Definition sentPing (now now_extra now_flight : Z) (c : CongestionState)
  : result CongestionState :=
  e <- getExtraBuffer now_extra c ;;
  g <- isCongested now_flight c ;;
  let rttInfo := {| tv := now; pos := lastPosition c;
                    extra := e; congested := g |} in
  Ok (set_pings (pings c ++ [rttInfo]) c).

(** The window chosen by the three way test of [updateCongestion], before
    it is clamped. *)
Definition rawWindow (c : CongestionState) : result Z :=
  let diff := wrap (minRTT c - baseRTT c) in
  if 100 <? diff then udiv (wrap (congWindow c * baseRTT c)) (minRTT c)
  else if 50 <? diff then Ok (wrap (congWindow c - 4096))
  else
    let diff := wrap (minCongestedRTT c - baseRTT c) in
    if diff <? 5 then Ok (wrap (congWindow c + 8192))
    else if diff <? 25 then Ok (wrap (congWindow c + 4096))
    else Ok (congWindow c).

(** [Congestion::updateCongestion()]; [now] is the reading of the clock
    stored in [lastAdjustment]. *)
Definition updateCongestion (now : Z) (c : CongestionState)
  : result CongestionState :=
  if measurements c <? 3 then Ok c
  else
    _ <- assert (baseRTT c <=? minRTT c) ;;
    _ <- assert (baseRTT c <=? minCongestedRTT c) ;;
    w <- rawWindow c ;;
    let w := if w <? MINIMUM_WINDOW then MINIMUM_WINDOW else w in
    let w := if MAXIMUM_WINDOW <? w then MAXIMUM_WINDOW else w in
    let c := set_congWindow w c in
    let c := set_measurements 0 c in
    let c := set_lastAdjustment now c in
    let c := set_minCongestedRTT UNSET c in
    Ok (set_minRTT UNSET c).

(** The statements of [gotPong] between the test of the age of the ping and
    the call of [updateCongestion]: the round trip time [rtt] of the ping
    [rttInfo] is compensated for the buffering delay, raised to the base
    round trip time and recorded in the minima of the batch. *)
Definition recordRTT (rtt : Z) (rttInfo : RTTInfo) (c : CongestionState)
  : result CongestionState :=
  delay <- udiv (wrap (extra rttInfo * baseRTT c)) (congWindow c) ;;
  let rtt := if delay <? rtt then rtt - delay else 1 in
  let rtt := if rtt <? baseRTT c then baseRTT c else rtt in
  let c := if rtt <? minRTT c then set_minRTT rtt c else c in
  let c := if congested rttInfo
           then (if rtt <? minCongestedRTT c
                 then set_minCongestedRTT rtt c else c)
           else c in
  Ok (set_measurements (wrap (measurements c + 1)) c).

(** [Congestion::gotPong()]; [now] is the clock read after the queue was
    found not to be empty, [now_adjust] the one read by
    [updateCongestion]. *)
Definition gotPong (now now_adjust : Z) (c : CongestionState)
  : result CongestionState :=
  match pings c with
  | [] => Ok c
  | rttInfo :: rest =>
      let c := set_pings rest c in
      let c := set_lastPong rttInfo c in
      let c := set_lastPongArrival now c in
      let rtt := msBetween (tv rttInfo) now in
      let rtt := if rtt <? 1 then 1 else rtt in
      let c := if rtt <? baseRTT c then set_baseRTT rtt c else c in
      if isBefore (tv rttInfo) (lastAdjustment c) then Ok c
      else
        c <- recordRTT rtt rttInfo c ;;
        updateCongestion now_adjust c
  end.

(** The one interval of the walk of [getUncongestedETA]: the time between
    the pongs of [prevPing] and of a ping with time stamp [tv_next] and
    buffer [extra_next], compensated for the buffering delays. *)
Definition etaInterval (c : CongestionState) (prevPing : RTTInfo)
    (tv_next extra_next : Z) : result Z :=
  let etaNext := msBetween (tv prevPing) tv_next in
  delay <- udiv (wrap (extra_next * baseRTT c)) (congWindow c) ;;
  let etaNext := wrap (etaNext + delay) in
  delay <- udiv (wrap (extra prevPing * baseRTT c)) (congWindow c) ;;
  Ok (if etaNext <=? delay then 0 else etaNext - delay).

(** The two last statements of both exits of [getUncongestedETA]. *)
Definition etaRemaining (eta elapsed : Z) : Z :=
  if eta <? elapsed then 0 else to_int (wrap (eta - elapsed)).

(** The extrapolation after the loop of [getUncongestedETA]. *)
Definition etaFinal (c : CongestionState) (targetAcked elapsed : Z)
    (prevPing : RTTInfo) (eta : Z) : result Z :=
  etaNext <- etaInterval c prevPing (lastUpdate c) (extraBuffer c) ;;
  q <- udiv (wrap (etaNext * wrap (lastPosition c - targetAcked)))
            (wrap (lastPosition c - pos prevPing)) ;;
  Ok (etaRemaining (wrap (eta + q)) elapsed).

(** The loop of [getUncongestedETA] over the queue of pings, followed by the
    extrapolation when no ping of the queue is the one waited for. *)
Fixpoint etaWalk (c : CongestionState) (targetAcked elapsed : Z)
    (prevPing : RTTInfo) (eta : Z) (queue : list RTTInfo) : result Z :=
  match queue with
  | [] => etaFinal c targetAcked elapsed prevPing eta
  | iter :: rest =>
      etaNext <- etaInterval c prevPing (tv iter) (extra iter) ;;
      if targetAcked <? pos iter then
        q <- udiv (wrap (etaNext * wrap (pos iter - targetAcked)))
                  (wrap (pos iter - pos prevPing)) ;;
        Ok (etaRemaining (wrap (eta + q)) elapsed)
      else
        etaWalk c targetAcked elapsed iter (wrap (eta + etaNext)) rest
  end.

(** [Congestion::getUncongestedETA()]; [now] is the clock read by
    [msSince]. *)
Definition getUncongestedETA (now : Z) (c : CongestionState) : result Z :=
  let targetAcked := wrap (lastPosition c - congWindow c) in
  if targetAcked <? pos (lastPong c) then Ok 0
  else if baseRTT c =? UNSET then Ok (-1)
  else
    let elapsed := msBetween (lastPongArrival c) now in
    etaWalk c targetAcked elapsed (lastPong c) 0 (pings c).

(** ** Sequences of calls *)

(** A call of one of the public operations, with the readings of the clock
    that it makes. *)
Inductive call : Type :=
| UpdatePosition (pos now now_adjust : Z)
| SentPing (now now_extra now_flight : Z)
| GotPong (now now_adjust : Z)
| IsCongested (now : Z)
| GetInFlight (now : Z)
| GetUncongestedETA (now : Z).

(** The effect of a call on the state; the three queries are [const]. *)
Definition step (k : call) (c : CongestionState) : result CongestionState :=
  match k with
  | UpdatePosition p now now_adjust => updatePosition p now now_adjust c
  | SentPing now now_extra now_flight => sentPing now now_extra now_flight c
  | GotPong now now_adjust => gotPong now now_adjust c
  | IsCongested now => _ <- isCongested now c ;; Ok c
  | GetInFlight now => _ <- getInFlight now c ;; Ok c
  | GetUncongestedETA now => _ <- getUncongestedETA now c ;; Ok c
  end.

(** The state after a sequence of calls, when none of them faults. *)
Fixpoint run (ks : list call) (c : CongestionState) : result CongestionState :=
  match ks with
  | [] => Ok c
  | k :: ks' => c' <- step k c ;; run ks' c'
  end.

(** The readings of the clock made by a call, in the order of the code. *)
Definition readings (k : call) : list Z :=
  match k with
  | UpdatePosition _ now now_adjust => [now; now_adjust]
  | SentPing now now_extra now_flight => [now; now_extra; now_flight]
  | GotPong now now_adjust => [now; now_adjust]
  | IsCongested now => [now]
  | GetInFlight now => [now]
  | GetUncongestedETA now => [now]
  end.

(** The clock never goes back: [ts] is non-decreasing and starts at or
    after [t]. *)
Fixpoint monotone (t : Z) (ts : list Z) : bool :=
  match ts with
  | [] => true
  | t' :: ts' => (t <=? t') && monotone t' ts'
  end.

(** The arguments of a call are values of the type [unsigned]. *)
Definition wellFormed (k : call) : bool :=
  match k with
  | UpdatePosition p _ _ => (0 <=? p) && (p <? U32_MOD)
  | _ => true
  end.

(** A state is reachable when a sequence of well formed calls, made on a
    freshly built controller and reading a clock that never goes back, ends
    in it without a fault. *)
Definition reachable (c : CongestionState) : Prop :=
  exists (t_update t_sent t_pong t_adjust : Z) (ks : list call),
    forallb wellFormed ks = true /\
    monotone t_update
      (t_sent :: t_pong :: t_adjust :: flat_map readings ks) = true /\
    run ks (Congestion t_update t_sent t_pong t_adjust) = Ok c.

(** The calls that may fault in a reachable state. *)
Definition isETAQuery (k : call) : bool :=
  match k with
  | GetUncongestedETA _ => true
  | _ => false
  end.

(** ** The invariant of the window and of the round trip times *)

(** What every state built by the public operations satisfies: the window
    is within its limits, the base round trip time is at least one
    millisecond, and the two minima of the current batch are not below it
    (the marker [UNSET] is the largest [unsigned]). *)
Record inv (c : CongestionState) : Prop := mkInv {
  inv_window : MINIMUM_WINDOW <= congWindow c <= MAXIMUM_WINDOW;
  inv_base : 1 <= baseRTT c <= UNSET;
  inv_min : baseRTT c <= minRTT c <= UNSET;
  inv_minCongested : baseRTT c <= minCongestedRTT c <= UNSET
}.

(** ** The window update as the specification words it *)

(** The window chosen by the table of the specification, in exact integer
    arithmetic; an unset [minCongestedRTT] skips the two increases. *)
Definition specWindow (c : CongestionState) : Z :=
  let diff := minRTT c - baseRTT c in
  if 100 <? diff then congWindow c * baseRTT c / minRTT c
  else if 50 <? diff then congWindow c - 4096
  else if minCongestedRTT c =? UNSET then congWindow c
  else
    let diff2 := minCongestedRTT c - baseRTT c in
    if diff2 <? 5 then congWindow c + 8192
    else if diff2 <? 25 then congWindow c + 4096
    else congWindow c.

(** Clamping to the interval from [lo] to [hi]. *)
Definition clamp (lo hi x : Z) : Z := Z.max lo (Z.min hi x).

(** The state after the window update of the specification. *)
Definition specUpdateCongestion (now : Z) (c : CongestionState)
  : CongestionState :=
  if measurements c <? 3 then c
  else
    {| lastPosition := lastPosition c;
       extraBuffer := extraBuffer c;
       lastUpdate := lastUpdate c;
       lastSent := lastSent c;
       baseRTT := baseRTT c;
       congWindow := clamp MINIMUM_WINDOW MAXIMUM_WINDOW (specWindow c);
       measurements := 0;
       minRTT := UNSET;
       minCongestedRTT := UNSET;
       lastPong := lastPong c;
       lastPongArrival := lastPongArrival c;
       lastAdjustment := now;
       pings := pings c |}.

(** ** Definitions used by the statements *)

(** A run that probes a path with a long round trip time and then sees the
    delay grow: the second batch of three pongs shrinks the window. *)
Definition slowPathCalls : list call :=
  [ SentPing 0 0 0; SentPing 0 0 0; SentPing 0 0 0;
    GotPong 262144 262144; GotPong 262144 262144; GotPong 262144 262144;
    SentPing 262144 262144 262144; SentPing 262144 262144 262144;
    SentPing 262144 262144 262144;
    GotPong 524389 524389; GotPong 524389 524389; GotPong 524389 524389 ].

(** The state after the calls [ks] on a controller built at time 0. *)
Definition stateAfter (ks : list call) : CongestionState :=
  match run ks (Congestion 0 0 0 0) with
  | Ok c => c
  | Fault _ => Congestion 0 0 0 0
  end.

(** 50000 bytes are written and a ping is sent at time 0; the pong arrives
    at time 10, and 30000 more bytes are written at once. *)
Definition burstAfterPong : list call :=
  [ UpdatePosition 50000 0 0; SentPing 0 0 0; GotPong 10 10;
    UpdatePosition 80000 10 10 ].

(** A ping is sent and answered before any byte is written. *)
Definition pingBeforeData : list call := [ SentPing 0 0 0; GotPong 50 50 ].

(** The state in which [gotPong] calls [updateCongestion], when it gets
    that far: the queue is not empty and the ping is not older than the last
    adjustment. *)
Definition stateAtUpdate (now : Z) (c : CongestionState)
  : option CongestionState :=
  match pings c with
  | [] => None
  | rttInfo :: rest =>
      let c := set_pings rest c in
      let c := set_lastPong rttInfo c in
      let c := set_lastPongArrival now c in
      let rtt := msBetween (tv rttInfo) now in
      let rtt := if rtt <? 1 then 1 else rtt in
      let c := if rtt <? baseRTT c then set_baseRTT rtt c else c in
      if isBefore (tv rttInfo) (lastAdjustment c) then None
      else
        match recordRTT rtt rttInfo c with
        | Ok c' => Some c'
        | Fault _ => None
        end
  end.

(** Three pings are sent at time 0 and answered [2^32 - 16] ms later. *)
Definition lostPongCalls : list call :=
  [ SentPing 0 0 0; SentPing 0 0 0; SentPing 0 0 0;
    GotPong 4294967280 4294967280; GotPong 4294967280 4294967280;
    GotPong 4294967280 4294967280 ].

(** A ping is sent, 20000 bytes are written, two more pings are sent while
    more than a window is in flight, and two of the three are answered
    20 ms later. *)
Definition starvedCalls : list call :=
  [ SentPing 0 0 0; UpdatePosition 20000 0 0; SentPing 0 0 0; SentPing 0 0 0;
    GotPong 20 20; GotPong 20 20 ].

(** The positions held by the controller are values of [unsigned]. *)
Definition inRange (z : Z) : Prop := 0 <= z < U32_MOD.

Record positionsInRange (c : CongestionState) : Prop := mkPositions {
  range_lastPosition : inRange (lastPosition c);
  range_lastPong : inRange (pos (lastPong c));
  range_pings : Forall (fun r => inRange (pos r)) (pings c)
}.

(** The time stamps [ts] never decrease. *)
Definition ordered (ts : list Z) : bool :=
  match ts with
  | [] => true
  | t :: ts' => monotone t ts'
  end.

(** * Properties *)

(** ** Arithmetic of the embedding *)

Lemma wrap_range (z : Z) : 0 <= wrap z < U32_MOD.
Proof. unfold wrap, U32_MOD. apply Z.mod_pos_bound. lia. Qed.

Lemma wrap_small (z : Z) : 0 <= z < U32_MOD -> wrap z = z.
Proof. intros H. unfold wrap. apply Z.mod_small. exact H. Qed.

Lemma msBetween_range (a b : Z) : 0 <= msBetween a b < U32_MOD.
Proof. unfold msBetween. apply wrap_range. Qed.

Lemma udiv_ok (a b : Z) : b <> 0 -> udiv a b = Ok (a / b).
Proof.
  intros H. unfold udiv.
  destruct (Z.eqb_spec b 0) as [E | _]; [contradiction | reflexivity].
Qed.

Lemma bind_ok {A B : Type} (r : result A) (k : A -> result B) (b : B) :
  bind r k = Ok b -> exists a, r = Ok a /\ k a = Ok b.
Proof.
  destruct r as [a | f]; simpl; [eauto | discriminate].
Qed.

(** ** The invariant is kept by every operation *)

Lemma inv_fields (c c' : CongestionState) :
  congWindow c' = congWindow c ->
  baseRTT c' = baseRTT c ->
  minRTT c' = minRTT c ->
  minCongestedRTT c' = minCongestedRTT c ->
  inv c -> inv c'.
Proof.
  intros Hw Hb Hm Hc [I1 I2 I3 I4].
  constructor; rewrite ?Hw, ?Hb, ?Hm, ?Hc; assumption.
Qed.

Ltac same_fields := apply inv_fields; reflexivity.

Lemma inv_Congestion (t1 t2 t3 t4 : Z) : inv (Congestion t1 t2 t3 t4).
Proof.
  constructor; cbn; unfold MINIMUM_WINDOW, MAXIMUM_WINDOW, INITIAL_WINDOW, UNSET;
    lia.
Qed.

Lemma inv_idleReset (t : Z) (c : CongestionState) : inv c -> inv (idleReset t c).
Proof.
  intros [I1 I2 I3 I4].
  constructor; cbn; unfold rfbmin, MINIMUM_WINDOW, MAXIMUM_WINDOW,
    INITIAL_WINDOW, UNSET in *;
    try destruct (Z.ltb_spec 16384 (congWindow c)); lia.
Qed.

Lemma updatePosition_inv (p now t : Z) (c : CongestionState) :
  inv c -> exists c', updatePosition p now t c = Ok c' /\ inv c'.
Proof.
  intros I. unfold updatePosition.
  set (c1 := if _ || _ then set_lastSent now c else c).
  assert (I1 : inv c1).
  { subst c1. destruct (_ || _); [revert I; same_fields | exact I]. }
  clearbody c1.
  set (c2 := if idleTooLong now c1 then idleReset t c1 else c1).
  assert (I2 : inv c2).
  { subst c2. destruct (idleTooLong now c1); [apply inv_idleReset |]; exact I1. }
  clearbody c2.
  destruct (Z.eqb_spec (baseRTT c2) UNSET) as [E | E]; cbn [bind].
  - eexists; split; [reflexivity | revert I2; same_fields].
  - rewrite udiv_ok by (destruct I2; lia). cbn [bind].
    eexists; split; [reflexivity | revert I2; same_fields].
Qed.

Lemma getExtraBuffer_total (now : Z) (c : CongestionState) :
  inv c -> exists e, getExtraBuffer now c = Ok e.
Proof.
  intros I. unfold getExtraBuffer.
  destruct (Z.eqb_spec (baseRTT c) UNSET); [eauto |].
  rewrite udiv_ok by (destruct I; lia). cbn [bind]. eauto.
Qed.

Lemma getInFlight_total (now : Z) (c : CongestionState) :
  inv c -> exists n, getInFlight now c = Ok n.
Proof.
  intros I. unfold getInFlight.
  assert (Hw : congWindow c <> 0)
    by (destruct I; unfold MINIMUM_WINDOW in *; lia).
  assert (Hb : baseRTT c <> 0) by (destruct I; lia).
  destruct (Z.eqb_spec (lastPosition c) (pos (lastPong c))); [eauto |].
  destruct (Z.eqb_spec (baseRTT c) UNSET).
  - destruct (pings c); eauto.
  - destruct (pings c) as [| nextPong rest].
    + destruct (Z.leb_spec (msBetween (lastUpdate c) now) (baseRTT c));
        cbn [bind]; [eauto |].
      rewrite udiv_ok by exact Hb. cbn [bind]. eauto.
    + rewrite !udiv_ok by exact Hw. cbn [bind].
      match goal with |- context [if ?a <=? ?b then 0 else _] =>
        set (etaNext := if a <=? b then 0 else _) end.
      destruct (Z.leb_spec etaNext (msBetween (lastPongArrival c) now))
        as [Hle | Hlt]; cbn [bind]; [eauto |].
      pose proof (msBetween_range (lastPongArrival c) now) as Hr.
      rewrite udiv_ok by lia. cbn [bind]. eauto.
Qed.

Lemma isCongested_total (now : Z) (c : CongestionState) :
  inv c -> exists b, isCongested now c = Ok b.
Proof.
  intros I. unfold isCongested.
  destruct (getInFlight_total now c I) as [n ->]. cbn [bind]. eauto.
Qed.

Lemma sentPing_inv (now t1 t2 : Z) (c : CongestionState) :
  inv c -> exists c', sentPing now t1 t2 c = Ok c' /\ inv c'.
Proof.
  intros I. unfold sentPing.
  destruct (getExtraBuffer_total t1 c I) as [e ->].
  destruct (isCongested_total t2 c I) as [g ->]. cbn [bind].
  eexists; split; [reflexivity | revert I; same_fields].
Qed.

Lemma assert_true (b : bool) : b = true -> assert b = Ok tt.
Proof. intros ->. reflexivity. Qed.

Lemma rawWindow_total (c : CongestionState) :
  inv c -> exists w, rawWindow c = Ok w.
Proof.
  intros I. unfold rawWindow.
  destruct (100 <? _).
  - rewrite udiv_ok by (destruct I; lia). eauto.
  - destruct (50 <? _); [eauto |].
    destruct (_ <? 5); [eauto |]. destruct (_ <? 25); eauto.
Qed.

Lemma clamped_window (w : Z) :
  let w1 := if w <? MINIMUM_WINDOW then MINIMUM_WINDOW else w in
  let w2 := if MAXIMUM_WINDOW <? w1 then MAXIMUM_WINDOW else w1 in
  MINIMUM_WINDOW <= w2 <= MAXIMUM_WINDOW /\
  w2 = clamp MINIMUM_WINDOW MAXIMUM_WINDOW w.
Proof.
  unfold clamp, MINIMUM_WINDOW, MAXIMUM_WINDOW. cbv zeta.
  destruct (Z.ltb_spec w 4096);
    [ destruct (Z.ltb_spec 4194304 4096) | destruct (Z.ltb_spec 4194304 w) ];
    lia.
Qed.

Lemma updateCongestion_inv (now : Z) (c : CongestionState) :
  inv c -> exists c', updateCongestion now c = Ok c' /\ inv c'.
Proof.
  intros I. unfold updateCongestion.
  destruct (measurements c <? 3); [eauto |].
  rewrite !assert_true by (apply Z.leb_le; destruct I; lia). cbn [bind].
  destruct (rawWindow_total c I) as [w ->]. cbn [bind].
  eexists; split; [reflexivity |].
  destruct (clamped_window w) as [Hw _]. cbv zeta in Hw.
  destruct I as [_ I2 _ _].
  constructor; cbn; [exact Hw | exact I2 | lia | lia].
Qed.

Lemma recordRTT_inv (rtt : Z) (rttInfo : RTTInfo) (c : CongestionState) :
  inv c -> exists c', recordRTT rtt rttInfo c = Ok c' /\ inv c'.
Proof.
  intros I. unfold recordRTT.
  rewrite udiv_ok by (destruct I; unfold MINIMUM_WINDOW in *; lia).
  cbn [bind].
  set (delay := _ / congWindow c). clearbody delay.
  set (rtt1 := if delay <? rtt then rtt - delay else 1). clearbody rtt1.
  set (rtt2 := if rtt1 <? baseRTT c then baseRTT c else rtt1).
  assert (H2 : baseRTT c <= rtt2).
  { subst rtt2. destruct (Z.ltb_spec rtt1 (baseRTT c)); lia. }
  clearbody rtt2.
  set (c2 := if rtt2 <? minRTT c then set_minRTT rtt2 c else c).
  assert (I2 : inv c2).
  { subst c2. destruct (Z.ltb_spec rtt2 (minRTT c)); [| exact I].
    destruct I as [J1 J2 J3 J4]. constructor; cbn; lia. }
  assert (E2 : baseRTT c2 = baseRTT c)
    by (subst c2; destruct (rtt2 <? minRTT c); reflexivity).
  clearbody c2.
  set (c3 := if congested rttInfo then _ else c2).
  assert (I3 : inv c3).
  { subst c3. destruct (congested rttInfo); [| exact I2].
    destruct (Z.ltb_spec rtt2 (minCongestedRTT c2)); [| exact I2].
    destruct I2 as [J1 J2 J3 J4]. constructor; cbn; lia. }
  clearbody c3.
  eexists; split; [reflexivity | revert I3; same_fields].
Qed.

Lemma gotPong_inv (now t : Z) (c : CongestionState) :
  inv c -> exists c', gotPong now t c = Ok c' /\ inv c'.
Proof.
  intros I. unfold gotPong.
  destruct (pings c) as [| rttInfo rest]; [eauto |].
  set (rtt := if msBetween (tv rttInfo) now <? 1 then 1 else _).
  assert (Hrtt : 1 <= rtt < U32_MOD).
  { subst rtt. pose proof (msBetween_range (tv rttInfo) now).
    destruct (Z.ltb_spec (msBetween (tv rttInfo) now) 1); unfold U32_MOD in *;
      lia. }
  clearbody rtt.
  set (c0 := set_lastPongArrival now (set_lastPong rttInfo (set_pings rest c))).
  assert (I0 : inv c0) by (subst c0; revert I; same_fields).
  clearbody c0.
  set (c1 := if rtt <? baseRTT c0 then set_baseRTT rtt c0 else c0).
  assert (I1 : inv c1).
  { subst c1. destruct (Z.ltb_spec rtt (baseRTT c0)); [| exact I0].
    destruct I0 as [J1 J2 J3 J4]. constructor; cbn; unfold UNSET in *; lia. }
  clearbody c1.
  destruct (isBefore (tv rttInfo) (lastAdjustment c1)); [eauto |].
  destruct (recordRTT_inv rtt rttInfo c1 I1) as [c2 [-> I2]]. cbn [bind].
  apply updateCongestion_inv, I2.
Qed.

Lemma step_inv (k : call) (c : CongestionState) :
  inv c -> isETAQuery k = false -> exists c', step k c = Ok c' /\ inv c'.
Proof.
  intros I Hk. destruct k as [p now t | now t1 t2 | now t | now | now | now];
    cbn [step]; try discriminate.
  - apply updatePosition_inv, I.
  - apply sentPing_inv, I.
  - apply gotPong_inv, I.
  - destruct (isCongested_total now c I) as [b ->]. cbn [bind]. eauto.
  - destruct (getInFlight_total now c I) as [n ->]. cbn [bind]. eauto.
Qed.

Lemma step_keeps_inv (k : call) (c c' : CongestionState) :
  inv c -> step k c = Ok c' -> inv c'.
Proof.
  intros I H. destruct (isETAQuery k) eqn:Hk.
  - destruct k; try discriminate. cbn [step] in H.
    apply bind_ok in H. destruct H as [_ [_ [= <-]]]. exact I.
  - destruct (step_inv k c I Hk) as [c'' [E I'']].
    rewrite E in H. injection H as <-. exact I''.
Qed.

Lemma run_keeps_inv (ks : list call) :
  forall c c', inv c -> run ks c = Ok c' -> inv c'.
Proof.
  induction ks as [| k ks IH]; intros c c' I H; cbn [run] in H.
  - injection H as <-. exact I.
  - apply bind_ok in H. destruct H as [c1 [H1 H2]].
    eapply IH; [| exact H2]. eapply step_keeps_inv; eassumption.
Qed.

Lemma reachable_inv (c : CongestionState) : reachable c -> inv c.
Proof.
  intros (t1 & t2 & t3 & t4 & ks & _ & _ & H).
  eapply run_keeps_inv; [apply inv_Congestion | exact H].
Qed.

(** ** The scenarios of the specification *)

(** Base round trip time learning: a ping at time 0, 1000 bytes at time 10,
    the pong at time 50. *)
Example scenario_base_rtt_learning :
  let c := stateAfter [ SentPing 0 0 0; UpdatePosition 1000 10 10;
                        GotPong 50 50 ] in
  baseRTT c = 50 /\ measurements c = 1 /\ congWindow c = INITIAL_WINDOW.
Proof. cbv zeta. vm_compute. repeat split. Qed.

(** Window shrink on excessive delay: a base of 20 ms, a window of 100000
    bytes and a minimum of 150 ms over three pongs. *)
Example scenario_window_shrink :
  let c := set_measurements 3 (set_minRTT 150 (set_baseRTT 20
             (set_congWindow 100000 (Congestion 0 0 0 0)))) in
  exists c', updateCongestion 7 c = Ok c' /\ congWindow c' = 13333 /\
             measurements c' = 0 /\ lastAdjustment c' = 7 /\
             minRTT c' = UNSET /\ minCongestedRTT c' = UNSET.
Proof. cbv zeta. eexists. split; [vm_compute; reflexivity |]. repeat split. Qed.

(** Idle reset: a base of 50 ms and a window of 200000 bytes, and 300 ms
    without a byte written. *)
Example scenario_idle_reset :
  let c := set_baseRTT 50 (set_congWindow 200000 (Congestion 0 0 0 0)) in
  exists c', updatePosition 0 300 300 c = Ok c' /\ baseRTT c' = UNSET /\
             congWindow c' = 16384 /\ measurements c' = 0 /\
             lastAdjustment c' = 300.
Proof. cbv zeta. eexists. split; [vm_compute; reflexivity |]. repeat split. Qed.

(** ** The window stays within its limits *)

(** C1: after every finite sequence of calls of the public operations on a
    fresh controller (whatever the clock reads, whatever the positions), the
    congestion window is between MINIMUM_WINDOW (4096) and MAXIMUM_WINDOW
    (4194304); and every further call of [updatePosition], [sentPing],
    [gotPong], [isCongested] or [getInFlight] returns, again with the window
    within these limits. *)
Theorem congWindow_within_limits :
  forall (t_update t_sent t_pong t_adjust : Z) (ks : list call)
         (c : CongestionState),
    run ks (Congestion t_update t_sent t_pong t_adjust) = Ok c ->
    (MINIMUM_WINDOW <= congWindow c <= MAXIMUM_WINDOW) /\
    (forall k : call, isETAQuery k = false ->
       exists c', step k c = Ok c' /\
                  MINIMUM_WINDOW <= congWindow c' <= MAXIMUM_WINDOW).
Proof.
  intros t1 t2 t3 t4 ks c H.
  assert (I : inv c)
    by (eapply run_keeps_inv; [apply inv_Congestion | exact H]).
  split; [apply I |].
  intros k Hk. destruct (step_inv k c I Hk) as [c' [E I']].
  exists c'. split; [exact E | apply I'].
Qed.

Lemma congWindow_within_limits_witness :
  exists c : CongestionState,
    run slowPathCalls (Congestion 0 0 0 0) = Ok c /\
    congWindow c = 4096 /\
    MINIMUM_WINDOW <= congWindow c <= MAXIMUM_WINDOW.
Proof.
  eexists. split; [vm_compute; reflexivity |].
  split; [reflexivity |].
  apply (congWindow_within_limits 0 0 0 0 slowPathCalls). vm_compute. reflexivity.
Defined.

(** ** The minima of a batch are not below the base round trip time *)

(** C7: in every state built by the public operations in which baseRTT is
    set, minRTT, when set, is at least baseRTT, and so is minCongestedRTT;
    and the two assertions of [updateCongestion] hold whenever it runs:
    called in such a state it returns, and so does [gotPong], which calls it
    after it recorded a pong. *)
Theorem minima_not_below_baseRTT :
  forall (t_update t_sent t_pong t_adjust : Z) (ks : list call)
         (c : CongestionState),
    run ks (Congestion t_update t_sent t_pong t_adjust) = Ok c ->
    (baseRTT c <> UNSET ->
       (minRTT c <> UNSET -> baseRTT c <= minRTT c) /\
       (minCongestedRTT c <> UNSET -> baseRTT c <= minCongestedRTT c)) /\
    (forall now : Z, exists c', updateCongestion now c = Ok c') /\
    (forall now now_adjust : Z, exists c', gotPong now now_adjust c = Ok c').
Proof.
  intros t1 t2 t3 t4 ks c H.
  assert (I : inv c)
    by (eapply run_keeps_inv; [apply inv_Congestion | exact H]).
  split; [| split].
  - intros _. destruct I as [_ _ I3 I4]. split; intros _; lia.
  - intros now. destruct (updateCongestion_inv now c I) as [c' [E _]]. eauto.
  - intros now t. destruct (gotPong_inv now t c I) as [c' [E _]]. eauto.
Qed.

Lemma minima_not_below_baseRTT_witness :
  exists c : CongestionState,
    run (firstn 11 slowPathCalls) (Congestion 0 0 0 0) = Ok c /\
    baseRTT c = 262144 /\ minRTT c = 262245 /\
    (baseRTT c <> UNSET ->
       (minRTT c <> UNSET -> baseRTT c <= minRTT c) /\
       (minCongestedRTT c <> UNSET -> baseRTT c <= minCongestedRTT c)).
Proof.
  eexists. split; [vm_compute; reflexivity |].
  split; [reflexivity |]. split; [reflexivity |].
  apply (minima_not_below_baseRTT 0 0 0 0 (firstn 11 slowPathCalls)).
  vm_compute. reflexivity.
Defined.

(** ** A pong that answers no ping *)

(** C8: a call of [gotPong] made while the queue of pings is empty returns
    and leaves every member of the controller as it was. *)
Theorem gotPong_empty_queue :
  forall (now now_adjust : Z) (c : CongestionState),
    pings c = [] -> gotPong now now_adjust c = Ok c.
Proof.
  intros now t c H. unfold gotPong. rewrite H. reflexivity.
Qed.

Lemma gotPong_empty_queue_witness :
  pings (Congestion 7 7 7 7) = [] /\
  gotPong 9 9 (Congestion 7 7 7 7) = Ok (Congestion 7 7 7 7).
Proof.
  split; [reflexivity |].
  apply (gotPong_empty_queue 9 9 (Congestion 7 7 7 7)). reflexivity.
Defined.

(** ** The idle test while the base round trip time is unknown *)

(** While [baseRTT] holds the marker [UNSET], the product [baseRTT*2] wraps
    to [2^32 - 2], which becomes the threshold of the idle test: the branch
    is taken only when the interval is [2^32 - 1] milliseconds. *)
Lemma idleTooLong_unset (now : Z) (c : CongestionState) :
  baseRTT c = UNSET ->
  idleTooLong now c = (msBetween (lastSent c) now =? 4294967295).
Proof.
  intros E. unfold idleTooLong. rewrite E.
  change (rfbmax (wrap (UNSET * 2)) 100) with 4294967294.
  pose proof (msBetween_range (lastSent c) now) as Hr. unfold U32_MOD in Hr.
  destruct (Z.ltb_spec 4294967294 (msBetween (lastSent c) now));
    destruct (Z.eqb_spec (msBetween (lastSent c) now) 4294967295);
    try reflexivity; lia.
Qed.

(** C2, at a controller built at time 0 and told at time 200 that nothing
    was sent: [baseRTT] is unset and 200 ms passed since [lastSent], more
    than 100 ms, yet the idle branch is not taken; the call only stores the
    time of the update, and [lastAdjustment] keeps the time 0 where the
    branch would have stored 200. *)
Theorem idle_branch_skipped_while_unset :
  let c := Congestion 0 0 0 0 in
  baseRTT c = UNSET /\
  msBetween (lastSent c) 200 = 200 /\
  idleTooLong 200 c = false /\
  updatePosition 0 200 200 c = Ok (set_lastUpdate 200 c) /\
  lastAdjustment (set_lastUpdate 200 c) = 0 /\
  lastAdjustment (idleReset 200 c) = 200.
Proof.
  cbv zeta. repeat split.
Qed.

(** ** Cold start *)

(** C3, on a fresh controller after the single call [updatePosition(0)],
    whatever the clock reads: [isCongested()] is false, [getInFlight()] is
    0 and the window is 16384, but [getUncongestedETA()] returns -1: the
    target [lastPosition - congWindow] wraps to [2^32 - 16384], the test of
    the simple case fails and the test for a missing measurement answers. *)
Theorem cold_start_queries :
  forall (t_update t_sent t_pong t_adjust now now_adjust t : Z),
  exists c : CongestionState,
    updatePosition 0 now now_adjust
      (Congestion t_update t_sent t_pong t_adjust) = Ok c /\
    isCongested t c = Ok false /\
    getInFlight t c = Ok 0 /\
    getUncongestedETA t c = Ok (-1) /\
    congWindow c = 16384.
Proof.
  intros t1 t2 t3 t4 now adj t.
  unfold updatePosition. cbn [lastPosition extraBuffer Congestion].
  change (wrap (0 - 0)) with 0. cbn [Z.ltb Z.compare orb].
  destruct (idleTooLong now (Congestion t1 t2 t3 t4));
    (eexists; split; [reflexivity | repeat split]).
Qed.

(** ** Concrete runs *)

Lemma stateAfter_reachable (ks : list call) :
  forallb wellFormed ks = true ->
  monotone 0 (flat_map readings ks) = true ->
  (exists c, run ks (Congestion 0 0 0 0) = Ok c) ->
  reachable (stateAfter ks).
Proof.
  intros Hw Hm [c Hc]. exists 0, 0, 0, 0, ks.
  split; [exact Hw |]. split; [cbn [monotone]; rewrite Hm; reflexivity |].
  unfold stateAfter. rewrite Hc. reflexivity.
Qed.

Ltac concrete_reachable :=
  apply stateAfter_reachable;
  [ vm_compute; reflexivity
  | vm_compute; reflexivity
  | eexists; vm_compute; reflexivity ].

(** ** The time to wait and the congested state *)

(** C5 fails in the state after [burstAfterPong]: it is reachable, baseRTT
    is set (10 ms), 13616 bytes count as in flight at time 10, fewer than the
    window of 16384, so [isCongested()] is false, and yet
    [getUncongestedETA()] returns 9: it interpolates between the positions
    of the pongs (50000 is not beyond the target 80000 - 16384), where
    [getInFlight()], with no ping in the queue, estimates from
    [extraBuffer]. *)
Lemma uncongested_with_positive_eta :
  let c := stateAfter burstAfterPong in
  reachable c /\
  baseRTT c = 10 /\
  congWindow c = 16384 /\
  lastPosition c = 80000 /\
  pos (lastPong c) = 50000 /\
  getInFlight 10 c = Ok 13616 /\
  isCongested 10 c = Ok false /\
  getUncongestedETA 10 c = Ok 9.
Proof.
  cbv zeta. split; [concrete_reachable |].
  vm_compute. repeat split.
Qed.

(** The first test of [getUncongestedETA]. *)
Lemma getUncongestedETA_simple_case (now : Z) (c : CongestionState) :
  wrap (lastPosition c - congWindow c) < pos (lastPong c) ->
  getUncongestedETA now c = Ok 0.
Proof.
  intros H. unfold getUncongestedETA.
  destruct (Z.ltb_spec (wrap (lastPosition c - congWindow c))
              (pos (lastPong c))); [reflexivity | lia].
Qed.

(** C5 as amended: in every state in which at least a window of bytes was
    written ([congWindow <= lastPosition]) and fewer than [congWindow] of
    them after the position of the last pong
    ([lastPosition - congWindow < lastPong.pos]), [getUncongestedETA()]
    returns 0, whether baseRTT is set or not. *)
Theorem eta_zero_within_window_of_last_pong :
  forall (now : Z) (c : CongestionState),
    0 <= congWindow c <= lastPosition c ->
    lastPosition c < U32_MOD ->
    lastPosition c - congWindow c < pos (lastPong c) ->
    getUncongestedETA now c = Ok 0.
Proof.
  intros now c Hw Hp Hlt. apply getUncongestedETA_simple_case.
  rewrite wrap_small by lia. exact Hlt.
Qed.

Lemma eta_zero_within_window_of_last_pong_witness :
  let c := stateAfter [ UpdatePosition 50000 0 0; SentPing 0 0 0;
                        GotPong 10 10; UpdatePosition 60000 10 10 ] in
  lastPosition c = 60000 /\ pos (lastPong c) = 50000 /\
  getUncongestedETA 10 c = Ok 0.
Proof.
  cbv zeta. split; [reflexivity |]. split; [reflexivity |].
  apply eta_zero_within_window_of_last_pong; vm_compute;
    try reflexivity; split; discriminate.
Defined.

(** ** Bytes in flight *)

(** C6 fails in the state after the single call [updatePosition(1000)] on a
    fresh controller: it is reachable and not the initial state,
    [lastPosition] is 1000 and [lastPong.pos] is 0, and [getInFlight()]
    returns 0 because there is neither a measurement nor a ping. *)
Lemma nothing_in_flight_away_from_last_pong :
  let c := stateAfter [ UpdatePosition 1000 0 0 ] in
  reachable c /\
  c <> Congestion 0 0 0 0 /\
  lastPosition c = 1000 /\
  pos (lastPong c) = 0 /\
  getInFlight 0 c = Ok 0.
Proof.
  cbv zeta. split; [concrete_reachable |].
  vm_compute. repeat split. discriminate.
Qed.

(** C6 as amended: in every state in which [lastPosition] equals
    [lastPong.pos], [getInFlight()] returns 0 (the converse does not
    hold). *)
Theorem getInFlight_zero_at_last_pong :
  forall (now : Z) (c : CongestionState),
    lastPosition c = pos (lastPong c) -> getInFlight now c = Ok 0.
Proof.
  intros now c H. unfold getInFlight. rewrite H, Z.eqb_refl. reflexivity.
Qed.

Lemma getInFlight_zero_at_last_pong_witness :
  let c := stateAfter [ UpdatePosition 50000 0 0; SentPing 0 0 0;
                        GotPong 10 10 ] in
  lastPosition c = 50000 /\ pos (lastPong c) = 50000 /\
  getInFlight 10 c = Ok 0.
Proof.
  cbv zeta. split; [reflexivity |]. split; [reflexivity |].
  apply getInFlight_zero_at_last_pong. reflexivity.
Defined.

(** ** The divisions of the time to wait *)

(** C9, in the state after [pingBeforeData]: the state is reachable,
    baseRTT is set (50 ms), the target [lastPosition - congWindow] wraps to
    [2^32 - 16384], which [lastPong.pos] (0) does not exceed, the queue is
    empty, so the extrapolation after the loop is reached; there the divisor
    [lastPosition - prevPing->pos] is 0 and the call faults. *)
Theorem eta_divides_by_zero_before_data :
  let c := stateAfter pingBeforeData in
  reachable c /\
  baseRTT c = 50 /\
  wrap (lastPosition c - congWindow c) = 4294950912 /\
  pos (lastPong c) = 0 /\
  pings c = [] /\
  wrap (lastPosition c - pos (lastPong c)) = 0 /\
  getUncongestedETA 50 c = Fault DivisionByZero.
Proof.
  cbv zeta. split; [concrete_reachable |].
  vm_compute. repeat split.
Qed.

(** ** The window update *)

Lemma gotPong_calls_updateCongestion (now t : Z) (c cm : CongestionState) :
  stateAtUpdate now c = Some cm ->
  gotPong now t c = updateCongestion t cm.
Proof.
  unfold stateAtUpdate, gotPong.
  destruct (pings c) as [| rttInfo rest]; [discriminate |].
  cbv zeta. destruct (isBefore _ _); [discriminate |].
  destruct (recordRTT _ _ _) as [c' | f]; [| discriminate].
  intros [= ->]. reflexivity.
Qed.

Lemma stateAtUpdate_inv (now : Z) (c cm : CongestionState) :
  inv c -> stateAtUpdate now c = Some cm -> inv cm.
Proof.
  intros I. unfold stateAtUpdate.
  destruct (pings c) as [| rttInfo rest]; [discriminate |].
  set (rtt := if msBetween (tv rttInfo) now <? 1 then 1 else _).
  assert (Hrtt : 1 <= rtt < U32_MOD).
  { subst rtt. pose proof (msBetween_range (tv rttInfo) now).
    destruct (Z.ltb_spec (msBetween (tv rttInfo) now) 1); unfold U32_MOD in *;
      lia. }
  clearbody rtt.
  set (c0 := set_lastPongArrival now (set_lastPong rttInfo (set_pings rest c))).
  assert (I0 : inv c0) by (subst c0; revert I; same_fields).
  clearbody c0.
  set (c1 := if rtt <? baseRTT c0 then set_baseRTT rtt c0 else c0).
  assert (I1 : inv c1).
  { subst c1. destruct (Z.ltb_spec rtt (baseRTT c0)); [| exact I0].
    destruct I0 as [J1 J2 J3 J4]. constructor; cbn; unfold UNSET in *; lia. }
  clearbody c1. cbv zeta.
  destruct (isBefore _ _); [discriminate |].
  destruct (recordRTT_inv rtt rttInfo c1 I1) as [c2 [-> I2]].
  intros [= <-]. exact I2.
Qed.

(** Under the invariant, the code and the table of the specification choose
    the same window, as long as the product fits 32 bits and a base round
    trip time is not within 25 ms of the marker. *)
Lemma rawWindow_specWindow (c : CongestionState) :
  inv c ->
  (100 < minRTT c - baseRTT c -> congWindow c * baseRTT c < U32_MOD) ->
  (minCongestedRTT c = UNSET -> baseRTT c <= UNSET - 25) ->
  rawWindow c = Ok (specWindow c).
Proof.
  intros [I1 I2 I3 I4] Hmul Hunset. unfold rawWindow, specWindow.
  unfold MINIMUM_WINDOW, MAXIMUM_WINDOW, UNSET, U32_MOD in *.
  rewrite (wrap_small (minRTT c - baseRTT c)) by (unfold U32_MOD; lia).
  rewrite (wrap_small (minCongestedRTT c - baseRTT c))
    by (unfold U32_MOD; lia).
  destruct (Z.ltb_spec 100 (minRTT c - baseRTT c)) as [Hbig | Hsmall].
  - rewrite udiv_ok by lia.
    rewrite wrap_small by (unfold U32_MOD; nia). reflexivity.
  - destruct (Z.ltb_spec 50 (minRTT c - baseRTT c)).
    + rewrite wrap_small by (unfold U32_MOD; lia). reflexivity.
    + destruct (Z.eqb_spec (minCongestedRTT c) 4294967295) as [E | E].
      * specialize (Hunset E).
        destruct (Z.ltb_spec (minCongestedRTT c - baseRTT c) 5); [lia |].
        destruct (Z.ltb_spec (minCongestedRTT c - baseRTT c) 25); [lia |].
        reflexivity.
      * destruct (Z.ltb_spec (minCongestedRTT c - baseRTT c) 5);
          [rewrite wrap_small by (unfold U32_MOD; lia); reflexivity |].
        destruct (Z.ltb_spec (minCongestedRTT c - baseRTT c) 25);
          [rewrite wrap_small by (unfold U32_MOD; lia) |]; reflexivity.
Qed.

Lemma updateCongestion_specUpdateCongestion (now : Z) (c : CongestionState) :
  inv c ->
  (100 < minRTT c - baseRTT c -> congWindow c * baseRTT c < U32_MOD) ->
  (minCongestedRTT c = UNSET -> baseRTT c <= UNSET - 25) ->
  updateCongestion now c = Ok (specUpdateCongestion now c).
Proof.
  intros I Hmul Hunset. unfold updateCongestion, specUpdateCongestion.
  destruct (measurements c <? 3); [reflexivity |].
  rewrite !assert_true by (apply Z.leb_le; destruct I; lia). cbn [bind].
  rewrite (rawWindow_specWindow c I Hmul Hunset).
  cbn [bind]. destruct (clamped_window (specWindow c)) as [_ E].
  cbv zeta in E. unfold set_minRTT, set_minCongestedRTT, set_lastAdjustment,
    set_measurements, set_congWindow. cbn. rewrite E. reflexivity.
Qed.

(** C10, at the last pong of [slowPathCalls]: the state before it is
    reachable; [gotPong] calls [updateCongestion] with three measurements,
    a window of 16384 bytes, a base round trip time of 262144 ms and a
    minimum of 262245 ms, so the difference is 101 and the first branch is
    taken; the product is exactly [2^32], it wraps to 0, and the window
    becomes 0, then 4096 by the clamp, where the exact quotient is 16377. *)
Theorem window_product_exceeds_32_bits :
  let c := stateAfter (firstn 11 slowPathCalls) in
  exists cm c' : CongestionState,
    reachable c /\
    stateAtUpdate 524389 c = Some cm /\
    measurements cm = 3 /\
    congWindow cm = 16384 /\ baseRTT cm = 262144 /\ minRTT cm = 262245 /\
    wrap (minRTT cm - baseRTT cm) = 101 /\
    congWindow cm * baseRTT cm = U32_MOD /\
    rawWindow cm = Ok 0 /\
    congWindow cm * baseRTT cm / minRTT cm = 16377 /\
    gotPong 524389 524389 c = Ok c' /\
    congWindow c' = 4096.
Proof.
  cbv zeta. do 2 eexists. split; [concrete_reachable |].
  split; [vm_compute; reflexivity |].
  vm_compute. repeat split.
Qed.

(** C4 fails at two invocations of [updateCongestion] from [gotPong], both
    in reachable states.  At the last pong of [slowPathCalls] the claim
    gives the window 16384 * 262144 / 262245 = 16377 and the code 4096,
    because the product does not fit 32 bits.  At the last pong of
    [lostPongCalls], [minCongestedRTT] is unset and the window still grows
    from 16384 to 20480: the marker [2^32 - 1] is only 15 above the base
    round trip time. *)
Lemma window_update_departs_from_table :
  (let c := stateAfter (firstn 11 slowPathCalls) in
   exists cm c' : CongestionState,
     reachable c /\
     stateAtUpdate 524389 c = Some cm /\
     congWindow (specUpdateCongestion 524389 cm) = 16377 /\
     gotPong 524389 524389 c = Ok c' /\
     congWindow c' = 4096) /\
  (let c := stateAfter (firstn 5 lostPongCalls) in
   exists cm c' : CongestionState,
     reachable c /\
     stateAtUpdate 4294967280 c = Some cm /\
     measurements cm = 3 /\
     minCongestedRTT cm = UNSET /\
     congWindow cm = 16384 /\
     gotPong 4294967280 4294967280 c = Ok c' /\
     congWindow c' = 20480).
Proof.
  cbv zeta. split; do 2 eexists.
  - split; [concrete_reachable |].
    split; [vm_compute; reflexivity |].
    vm_compute. repeat split.
  - split; [concrete_reachable |].
    split; [vm_compute; reflexivity |].
    vm_compute. repeat split.
Qed.

(** Where the window update follows the table of the specification: at
    every invocation of [updateCongestion] from [gotPong] in a reachable
    state, provided the product congWindow * baseRTT is below 2^32 when
    diff > 100, and baseRTT is at most 2^32 - 26 when minCongestedRTT is
    unset, [updateCongestion], and with it [gotPong], returns the state
    [specUpdateCongestion]: no change when measurements < 3, and otherwise
    the window of the table clamped to [MINIMUM_WINDOW, MAXIMUM_WINDOW],
    measurements 0, lastAdjustment the time of the update, and minRTT and
    minCongestedRTT unset. *)
Theorem gotPong_updates_window_as_specified :
  forall (now now_adjust : Z) (c cm : CongestionState),
    reachable c ->
    stateAtUpdate now c = Some cm ->
    (100 < minRTT cm - baseRTT cm -> congWindow cm * baseRTT cm < U32_MOD) ->
    (minCongestedRTT cm = UNSET -> baseRTT cm <= UNSET - 25) ->
    updateCongestion now_adjust cm = Ok (specUpdateCongestion now_adjust cm) /\
    gotPong now now_adjust c = Ok (specUpdateCongestion now_adjust cm).
Proof.
  intros now t c cm R Hcm Hmul Hunset.
  assert (Icm : inv cm)
    by (eapply stateAtUpdate_inv; [apply reachable_inv, R | exact Hcm]).
  pose proof (updateCongestion_specUpdateCongestion t cm Icm Hmul Hunset) as E.
  split; [exact E |].
  rewrite (gotPong_calls_updateCongestion now t c cm Hcm). exact E.
Qed.

Lemma gotPong_updates_window_as_specified_witness :
  let c := stateAfter starvedCalls in
  exists cm : CongestionState,
    stateAtUpdate 20 c = Some cm /\
    congWindow cm = 16384 /\
    congWindow (specUpdateCongestion 20 cm) = 24576 /\
    gotPong 20 20 c = Ok (specUpdateCongestion 20 cm).
Proof.
  cbv zeta. eexists. split; [vm_compute; reflexivity |].
  split; [reflexivity |]. split; [reflexivity |].
  apply (gotPong_updates_window_as_specified 20 20 (stateAfter starvedCalls)).
  - concrete_reachable.
  - vm_compute. reflexivity.
  - vm_compute. discriminate.
  - vm_compute. discriminate.
Defined.

(** ** Where the time to wait is defined *)

Lemma updateCongestion_frame (now : Z) (c c' : CongestionState) :
  updateCongestion now c = Ok c' ->
  lastPosition c' = lastPosition c /\ lastPong c' = lastPong c /\
  pings c' = pings c.
Proof.
  unfold updateCongestion.
  destruct (measurements c <? 3); [intros [= <-]; auto |].
  intros H.
  apply bind_ok in H. destruct H as [_ [_ H]].
  apply bind_ok in H. destruct H as [_ [_ H]].
  apply bind_ok in H. destruct H as [w [_ H]].
  injection H as <-. auto.
Qed.

Lemma recordRTT_frame (rtt : Z) (r : RTTInfo) (c c' : CongestionState) :
  recordRTT rtt r c = Ok c' ->
  lastPosition c' = lastPosition c /\ lastPong c' = lastPong c /\
  pings c' = pings c.
Proof.
  unfold recordRTT. intros H.
  apply bind_ok in H. destruct H as [delay [_ H]].
  injection H as <-.
  repeat match goal with |- context [if ?b then _ else _] => destruct b end;
    auto.
Qed.

Lemma updatePosition_frame (p now t : Z) (c c' : CongestionState) :
  updatePosition p now t c = Ok c' ->
  lastPosition c' = p /\ lastPong c' = lastPong c /\ pings c' = pings c.
Proof.
  unfold updatePosition. intros H.
  apply bind_ok in H. destruct H as [c1 [H1 H]].
  injection H as <-. cbn.
  revert H1.
  repeat match goal with |- context [if ?b then _ else _] => destruct b end;
    intros H1;
    try (apply bind_ok in H1; destruct H1 as [consumed [_ H1]]);
    injection H1 as <-; auto.
Qed.

Lemma sentPing_frame (now t1 t2 : Z) (c c' : CongestionState) :
  sentPing now t1 t2 c = Ok c' ->
  lastPosition c' = lastPosition c /\ lastPong c' = lastPong c /\
  exists r, pos r = lastPosition c /\ pings c' = pings c ++ [r].
Proof.
  unfold sentPing. intros H.
  apply bind_ok in H. destruct H as [e [_ H]].
  apply bind_ok in H. destruct H as [g [_ H]].
  injection H as <-. cbn.
  split; [reflexivity |]. split; [reflexivity |].
  eexists. split; [| reflexivity]. reflexivity.
Qed.

Lemma gotPong_frame (now t : Z) (c c' : CongestionState) :
  gotPong now t c = Ok c' ->
  lastPosition c' = lastPosition c /\
  ((pings c = [] /\ c' = c) \/
   (exists r rest, pings c = r :: rest /\ lastPong c' = r /\ pings c' = rest)).
Proof.
  unfold gotPong. destruct (pings c) as [| r rest] eqn:Hp.
  - intros [= <-]. auto.
  - cbv zeta.
    set (c1 := if _ <? baseRTT _ then _ else _).
    assert (F1 : lastPosition c1 = lastPosition c /\ lastPong c1 = r /\
                 pings c1 = rest)
      by (subst c1; destruct (_ <? baseRTT _); auto).
    clearbody c1. destruct F1 as (F1 & F2 & F3).
    destruct (isBefore _ _).
    + intros [= <-]. split; [exact F1 | right; eauto].
    + intros H. apply bind_ok in H. destruct H as [c2 [H2 H]].
      apply recordRTT_frame in H2. apply updateCongestion_frame in H.
      destruct H2 as (G1 & G2 & G3). destruct H as (K1 & K2 & K3).
      split; [congruence | right]. exists r, rest.
      split; [reflexivity |]. split; congruence.
Qed.

Lemma step_keeps_positions (k : call) (c c' : CongestionState) :
  wellFormed k = true -> positionsInRange c -> step k c = Ok c' ->
  positionsInRange c'.
Proof.
  intros Hk [P1 P2 P3] H.
  destruct k as [p now t | now t1 t2 | now t | now | now | now];
    cbn [step] in H.
  - apply updatePosition_frame in H. destruct H as (F1 & F2 & F3).
    cbn [wellFormed] in Hk. apply andb_prop in Hk. destruct Hk as [Ha Hb].
    constructor; rewrite ?F1, ?F2, ?F3; try assumption.
    unfold inRange. lia.
  - apply sentPing_frame in H. destruct H as (F1 & F2 & r & Fr & F3).
    constructor; rewrite ?F1, ?F2, ?F3; try assumption.
    apply Forall_app. split; [exact P3 |].
    constructor; [rewrite Fr; exact P1 | constructor].
  - apply gotPong_frame in H.
    destruct H as (F1 & [[_ ->] | (r & rest & Hp & F2 & F3)]).
    + constructor; assumption.
    + rewrite Hp in P3. inversion P3 as [| x l Hx Hl]; subst.
      constructor; rewrite ?F1, ?F2, ?F3; assumption.
  - apply bind_ok in H. destruct H as [_ [_ [= <-]]]. constructor; assumption.
  - apply bind_ok in H. destruct H as [_ [_ [= <-]]]. constructor; assumption.
  - apply bind_ok in H. destruct H as [_ [_ [= <-]]]. constructor; assumption.
Qed.

Lemma run_keeps_positions (ks : list call) :
  forall c c', forallb wellFormed ks = true -> positionsInRange c ->
               run ks c = Ok c' -> positionsInRange c'.
Proof.
  induction ks as [| k ks IH]; intros c c' Hw P H; cbn [run] in H.
  - injection H as <-. exact P.
  - cbn [forallb] in Hw. apply andb_prop in Hw. destruct Hw as [Hk Hks].
    apply bind_ok in H. destruct H as [c1 [H1 H2]].
    eapply IH; [exact Hks | | exact H2].
    eapply step_keeps_positions; eassumption.
Qed.

Lemma reachable_positions (c : CongestionState) :
  reachable c -> positionsInRange c.
Proof.
  intros (t1 & t2 & t3 & t4 & ks & Hw & _ & H).
  eapply run_keeps_positions; [exact Hw | | exact H].
  constructor; cbn; unfold inRange, U32_MOD; try lia. constructor.
Qed.

Section Walk.

Variable c : CongestionState.
Variables targetAcked elapsed : Z.

Hypothesis window_nonzero : congWindow c <> 0.
Hypothesis target_below : targetAcked < lastPosition c < U32_MOD.

Lemma etaInterval_total (prev : RTTInfo) (t x : Z) :
  exists e, etaInterval c prev t x = Ok e.
Proof.
  unfold etaInterval. rewrite !udiv_ok by exact window_nonzero.
  cbn [bind]. eauto.
Qed.

(** The division inside the loop of [getUncongestedETA] is by the
    difference of two positions on opposite sides of the target, and the
    one after the loop is by a positive number when the target did not
    wrap. *)
Lemma etaWalk_total (queue : list RTTInfo) :
  Forall (fun r => inRange (pos r)) queue ->
  forall (prev : RTTInfo) (eta : Z),
    0 <= pos prev <= targetAcked ->
    exists r, etaWalk c targetAcked elapsed prev eta queue = Ok r.
Proof.
  induction queue as [| iter rest IH]; intros Hq prev eta Hprev;
    cbn [etaWalk].
  - unfold etaFinal.
    destruct (etaInterval_total prev (lastUpdate c) (extraBuffer c))
      as [e ->]. cbn [bind].
    rewrite udiv_ok; [cbn [bind]; eauto |].
    rewrite wrap_small by lia. lia.
  - inversion Hq as [| x l Hx Hl]; subst.
    destruct (etaInterval_total prev (tv iter) (extra iter)) as [e ->].
    cbn [bind]. unfold inRange in Hx.
    destruct (Z.ltb_spec targetAcked (pos iter)).
    + rewrite udiv_ok; [cbn [bind]; eauto |].
      rewrite wrap_small by lia. lia.
    + apply IH; [exact Hl | lia].
Qed.

End Walk.

(** In a reachable state in which at least a window of bytes was written,
    [getUncongestedETA] returns. *)
Lemma getUncongestedETA_total (now : Z) (c : CongestionState) :
  reachable c -> congWindow c <= lastPosition c ->
  exists r, getUncongestedETA now c = Ok r.
Proof.
  intros R Hge.
  pose proof (reachable_inv c R) as [I1 _ _ _].
  pose proof (reachable_positions c R) as [P1 P2 P3].
  unfold inRange, MINIMUM_WINDOW in *.
  unfold getUncongestedETA. rewrite (wrap_small (lastPosition c - congWindow c))
    by lia.
  destruct (Z.ltb_spec (lastPosition c - congWindow c) (pos (lastPong c)));
    [eauto |].
  destruct (baseRTT c =? UNSET); [eauto |].
  apply etaWalk_total; try assumption; lia.
Qed.

(** * Further properties of the operations *)

(** ** What the window update and the recording of a pong leave alone *)

Lemma updateCongestion_keeps (now : Z) (c c' : CongestionState) :
  updateCongestion now c = Ok c' ->
  baseRTT c' = baseRTT c /\ extraBuffer c' = extraBuffer c /\
  lastUpdate c' = lastUpdate c /\ lastSent c' = lastSent c /\
  lastPongArrival c' = lastPongArrival c.
Proof.
  unfold updateCongestion.
  destruct (measurements c <? 3); [intros [= <-]; repeat split |].
  intros H.
  apply bind_ok in H. destruct H as [_ [_ H]].
  apply bind_ok in H. destruct H as [_ [_ H]].
  apply bind_ok in H. destruct H as [w [_ H]].
  injection H as <-. repeat split.
Qed.

Lemma recordRTT_keeps (rtt : Z) (r : RTTInfo) (c c' : CongestionState) :
  recordRTT rtt r c = Ok c' ->
  baseRTT c' = baseRTT c /\ extraBuffer c' = extraBuffer c /\
  lastUpdate c' = lastUpdate c /\ lastSent c' = lastSent c /\
  lastPongArrival c' = lastPongArrival c /\
  congWindow c' = congWindow c /\ lastAdjustment c' = lastAdjustment c /\
  measurements c' = wrap (measurements c + 1).
Proof.
  unfold recordRTT. intros H.
  apply bind_ok in H. destruct H as [delay [_ H]].
  injection H as <-.
  repeat match goal with |- context [if ?b then _ else _] => destruct b end;
    repeat split.
Qed.

(** The round trip time that [gotPong] measures for the ping [r]. *)
Lemma measured_rtt (m : Z) : (if m <? 1 then 1 else m) = Z.max 1 m.
Proof. destruct (Z.ltb_spec m 1); lia. Qed.

(** ** The base round trip time *)

(** X1: a pong that answers the ping [r] leaves in [baseRTT] the smaller of
    its old value and the round trip time of [r], which counts as at least
    1 ms; this holds whether or not the ping is older than the last
    adjustment, so [baseRTT] never grows in [gotPong]. *)
Theorem gotPong_lowers_baseRTT :
  forall (now now_adjust : Z) (c c' : CongestionState) (r : RTTInfo)
         (rest : list RTTInfo),
    pings c = r :: rest ->
    gotPong now now_adjust c = Ok c' ->
    baseRTT c' = Z.min (baseRTT c) (Z.max 1 (msBetween (tv r) now)) /\
    baseRTT c' <= baseRTT c.
Proof.
  intros now t c c' r rest Hp H.
  assert (E : baseRTT c' = Z.min (baseRTT c) (Z.max 1 (msBetween (tv r) now)));
    [| split; [exact E | lia]].
  unfold gotPong in H. rewrite Hp in H. cbv zeta in H.
  rewrite measured_rtt in H.
  set (rtt := Z.max 1 (msBetween (tv r) now)) in *.
  set (c1 := if rtt <? baseRTT _ then _ else _) in H.
  assert (E1 : baseRTT c1 = Z.min (baseRTT c) rtt).
  { subst c1. cbn. destruct (Z.ltb_spec rtt (baseRTT c)); cbn; lia. }
  clearbody c1.
  destruct (isBefore (tv r) (lastAdjustment c1)).
  - injection H as <-. exact E1.
  - apply bind_ok in H. destruct H as [c2 [H2 H]].
    apply recordRTT_keeps in H2. apply updateCongestion_keeps in H.
    destruct H2 as [G _]. destruct H as [K _]. congruence.
Qed.

Lemma gotPong_lowers_baseRTT_witness :
  let c := stateAfter [ SentPing 0 0 0; SentPing 30 30 30; GotPong 50 50 ] in
  exists (c' : CongestionState) (r : RTTInfo) (rest : list RTTInfo),
    pings c = r :: rest /\
    gotPong 60 60 c = Ok c' /\
    baseRTT c' = Z.min (baseRTT c) (Z.max 1 (msBetween (tv r) 60)) /\
    baseRTT c' <= baseRTT c.
Proof.
  cbv zeta. do 3 eexists.
  split; [vm_compute; reflexivity |].
  split; [vm_compute; reflexivity |].
  eapply (gotPong_lowers_baseRTT 60 60); vm_compute; reflexivity.
Defined.

(** X17: in every state built by the public operations, [baseRTT] is at
    least 1 ms (or the marker of an unknown round trip time), so that no
    division by [baseRTT] is by zero: [getExtraBuffer], [getInFlight] and
    [isCongested] return. *)
Theorem baseRTT_at_least_one :
  forall (t_update t_sent t_pong t_adjust : Z) (ks : list call)
         (c : CongestionState),
    run ks (Congestion t_update t_sent t_pong t_adjust) = Ok c ->
    1 <= baseRTT c <= UNSET /\
    (forall now, exists e, getExtraBuffer now c = Ok e) /\
    (forall now, exists n, getInFlight now c = Ok n) /\
    (forall now, exists b, isCongested now c = Ok b).
Proof.
  intros t1 t2 t3 t4 ks c H.
  assert (I : inv c)
    by (eapply run_keeps_inv; [apply inv_Congestion | exact H]).
  split; [apply I |].
  split; [| split]; intros now.
  - apply getExtraBuffer_total, I.
  - apply getInFlight_total, I.
  - apply isCongested_total, I.
Qed.

Lemma baseRTT_at_least_one_witness :
  exists c,
    run [ SentPing 5 5 5; GotPong 5 5 ] (Congestion 5 5 5 5) = Ok c /\
    baseRTT c = 1 /\ 1 <= baseRTT c <= UNSET.
Proof.
  eexists. split; [vm_compute; reflexivity |]. split; [reflexivity |].
  apply (baseRTT_at_least_one 5 5 5 5 [ SentPing 5 5 5; GotPong 5 5 ]).
  vm_compute. reflexivity.
Defined.

(** ** The queue of pings *)

(** X2: a pong answers the oldest ping: [gotPong] on a queue that starts
    with [r] removes [r] and nothing else from the queue, stores [r] in
    [lastPong] and the time of arrival in [lastPongArrival], and leaves the
    position, the extra buffer and the times of the last update and of the
    last write as they were. *)
Theorem gotPong_dequeues_oldest :
  forall (now now_adjust : Z) (c c' : CongestionState) (r : RTTInfo)
         (rest : list RTTInfo),
    pings c = r :: rest ->
    gotPong now now_adjust c = Ok c' ->
    pings c' = rest /\ lastPong c' = r /\ lastPongArrival c' = now /\
    lastPosition c' = lastPosition c /\ extraBuffer c' = extraBuffer c /\
    lastUpdate c' = lastUpdate c /\ lastSent c' = lastSent c.
Proof.
  intros now t c c' r rest Hp H.
  unfold gotPong in H. rewrite Hp in H. cbv zeta in H.
  set (c1 := if _ <? baseRTT _ then _ else _) in H.
  assert (F : pings c1 = rest /\ lastPong c1 = r /\ lastPongArrival c1 = now /\
              lastPosition c1 = lastPosition c /\
              extraBuffer c1 = extraBuffer c /\
              lastUpdate c1 = lastUpdate c /\ lastSent c1 = lastSent c)
    by (subst c1; destruct (_ <? baseRTT _); repeat split).
  clearbody c1. destruct F as (F1 & F2 & F3 & F4 & F5 & F6 & F7).
  destruct (isBefore (tv r) (lastAdjustment c1)).
  - injection H as <-. repeat split; assumption.
  - apply bind_ok in H. destruct H as [c2 [H2 H]].
    pose proof (recordRTT_frame _ _ _ _ H2) as (A1 & A2 & A3).
    pose proof (recordRTT_keeps _ _ _ _ H2) as (_ & B2 & B3 & B4 & B5 & _).
    pose proof (updateCongestion_frame _ _ _ H) as (D1 & D2 & D3).
    pose proof (updateCongestion_keeps _ _ _ H) as (_ & E2 & E3 & E4 & E5).
    repeat split; congruence.
Qed.

Lemma gotPong_dequeues_oldest_witness :
  let c := stateAfter [ UpdatePosition 700 0 0; SentPing 1 1 1;
                        UpdatePosition 900 2 2; SentPing 3 3 3 ] in
  exists (c' : CongestionState) (r : RTTInfo) (rest : list RTTInfo),
    pings c = r :: rest /\ tv r = 1 /\ pos r = 700 /\
    gotPong 40 40 c = Ok c' /\
    (pings c' = rest /\ lastPong c' = r /\ lastPongArrival c' = 40 /\
     lastPosition c' = lastPosition c /\ extraBuffer c' = extraBuffer c /\
     lastUpdate c' = lastUpdate c /\ lastSent c' = lastSent c).
Proof.
  cbv zeta. do 3 eexists.
  split; [vm_compute; reflexivity |].
  split; [reflexivity |]. split; [reflexivity |].
  split; [vm_compute; reflexivity |].
  eapply (gotPong_dequeues_oldest 40 40); vm_compute; reflexivity.
Defined.

(** X3: a pong for a ping that was sent before the last adjustment is no
    measurement: [gotPong] returns, and the window, the number of
    measurements, both minima and the time of the last adjustment are as
    before. *)
Theorem gotPong_ignores_old_ping :
  forall (now now_adjust : Z) (c : CongestionState) (r : RTTInfo)
         (rest : list RTTInfo),
    pings c = r :: rest ->
    tv r < lastAdjustment c ->
    exists c' : CongestionState,
      gotPong now now_adjust c = Ok c' /\
      congWindow c' = congWindow c /\
      measurements c' = measurements c /\
      minRTT c' = minRTT c /\
      minCongestedRTT c' = minCongestedRTT c /\
      lastAdjustment c' = lastAdjustment c.
Proof.
  intros now t c r rest Hp Hold.
  unfold gotPong. rewrite Hp. cbv zeta.
  set (c1 := if _ <? baseRTT _ then _ else _).
  assert (F : congWindow c1 = congWindow c /\
              measurements c1 = measurements c /\ minRTT c1 = minRTT c /\
              minCongestedRTT c1 = minCongestedRTT c /\
              lastAdjustment c1 = lastAdjustment c)
    by (subst c1; destruct (_ <? baseRTT _); repeat split).
  clearbody c1. destruct F as (F1 & F2 & F3 & F4 & F5).
  unfold isBefore. rewrite F5.
  destruct (Z.ltb_spec (tv r) (lastAdjustment c)); [| lia].
  exists c1. repeat split; assumption.
Qed.

Lemma gotPong_ignores_old_ping_witness :
  let c := stateAfter [ SentPing 0 0 0; UpdatePosition 20000 0 0;
                        SentPing 0 0 0; SentPing 0 0 0; SentPing 10 10 10;
                        GotPong 20 20; GotPong 20 20; GotPong 20 20 ] in
  exists c' : CongestionState,
    lastAdjustment c = 20 /\ congWindow c = 24576 /\
    gotPong 25 25 c = Ok c' /\ congWindow c' = 24576 /\ measurements c' = 0.
Proof.
  cbv zeta.
  destruct (gotPong_ignores_old_ping 25 25
    (stateAfter [ SentPing 0 0 0; UpdatePosition 20000 0 0;
                  SentPing 0 0 0; SentPing 0 0 0; SentPing 10 10 10;
                  GotPong 20 20; GotPong 20 20; GotPong 20 20 ])
    {| tv := 10; pos := 20000; extra := 0; congested := true |} [])
    as (c' & E & Hw & Hm & _).
  - vm_compute. reflexivity.
  - vm_compute. reflexivity.
  - exists c'. split; [reflexivity |]. split; [reflexivity |].
    split; [exact E |]. split; [rewrite Hw | rewrite Hm]; reflexivity.
Defined.

(** ** The number of measurements *)

Lemma updateCongestion_measurements (now : Z) (c c' : CongestionState) :
  updateCongestion now c = Ok c' ->
  (measurements c < 3 /\ measurements c' = measurements c) \/
  measurements c' = 0.
Proof.
  unfold updateCongestion.
  destruct (Z.ltb_spec (measurements c) 3) as [Hlt | Hge].
  - intros [= <-]. left. split; [assumption | reflexivity].
  - intros H.
    apply bind_ok in H. destruct H as [_ [_ H]].
    apply bind_ok in H. destruct H as [_ [_ H]].
    apply bind_ok in H. destruct H as [w [_ H]].
    injection H as <-. right. reflexivity.
Qed.

Lemma updatePosition_measurements (p now t : Z) (c c' : CongestionState) :
  updatePosition p now t c = Ok c' ->
  measurements c' = measurements c \/ measurements c' = 0.
Proof.
  unfold updatePosition. intros H.
  apply bind_ok in H. destruct H as [c1 [H1 H]].
  injection H as <-. cbn.
  revert H1.
  repeat match goal with |- context [if ?b then _ else _] => destruct b end;
    intros H1;
    try (apply bind_ok in H1; destruct H1 as [consumed [_ H1]]);
    injection H1 as <-; auto.
Qed.

Lemma step_keeps_measurements (k : call) (c c' : CongestionState) :
  0 <= measurements c <= 2 -> step k c = Ok c' -> 0 <= measurements c' <= 2.
Proof.
  intros Hm H.
  destruct k as [p now t | now t1 t2 | now t | now | now | now];
    cbn [step] in H.
  - apply updatePosition_measurements in H. lia.
  - unfold sentPing in H.
    apply bind_ok in H. destruct H as [e [_ H]].
    apply bind_ok in H. destruct H as [g [_ H]].
    injection H as <-. exact Hm.
  - unfold gotPong in H. destruct (pings c) as [| r rest].
    { injection H as <-. exact Hm. }
    cbv zeta in H.
    set (c1 := if _ <? baseRTT _ then _ else _) in H.
    assert (M1 : measurements c1 = measurements c)
      by (subst c1; destruct (_ <? baseRTT _); reflexivity).
    clearbody c1.
    destruct (isBefore (tv r) (lastAdjustment c1)).
    { injection H as <-. lia. }
    apply bind_ok in H. destruct H as [c2 [H2 H]].
    pose proof (recordRTT_keeps _ _ _ _ H2) as (_ & _ & _ & _ & _ & _ & _ & K).
    rewrite M1, wrap_small in K by (unfold U32_MOD; lia).
    apply updateCongestion_measurements in H. lia.
  - apply bind_ok in H. destruct H as [_ [_ [= <-]]]. exact Hm.
  - apply bind_ok in H. destruct H as [_ [_ [= <-]]]. exact Hm.
  - apply bind_ok in H. destruct H as [_ [_ [= <-]]]. exact Hm.
Qed.

Lemma run_keeps_measurements (ks : list call) :
  forall c0 c, 0 <= measurements c0 <= 2 -> run ks c0 = Ok c ->
               0 <= measurements c <= 2.
Proof.
  induction ks as [| k ks IH]; intros c0 c Hm H; cbn [run] in H.
  - injection H as <-. exact Hm.
  - apply bind_ok in H. destruct H as [c1 [H1 H2]].
    eapply IH; [| exact H2]. eapply step_keeps_measurements; eassumption.
Qed.

(** X5: the counter of measurements never reaches three between two
    calls: in every state built by the public operations it is 0, 1 or 2,
    because the pong that makes it three also adjusts the window and starts
    a new batch. *)
Theorem measurements_below_three :
  forall (t_update t_sent t_pong t_adjust : Z) (ks : list call)
         (c : CongestionState),
    run ks (Congestion t_update t_sent t_pong t_adjust) = Ok c ->
    0 <= measurements c <= 2.
Proof.
  intros t1 t2 t3 t4 ks c H.
  eapply run_keeps_measurements; [| exact H]. cbn. lia.
Qed.

Lemma measurements_below_three_witness :
  exists c : CongestionState,
    run (firstn 11 slowPathCalls) (Congestion 0 0 0 0) = Ok c /\
    measurements c = 2 /\ 0 <= measurements c <= 2.
Proof.
  eexists. split; [vm_compute; reflexivity |]. split; [reflexivity |].
  apply (measurements_below_three 0 0 0 0 (firstn 11 slowPathCalls)).
  vm_compute. reflexivity.
Defined.

(** ** How far one pong moves the window *)

Lemma rawWindow_growth (c : CongestionState) (w : Z) :
  inv c -> rawWindow c = Ok w -> w <= congWindow c + 8192.
Proof.
  intros [I1 I2 I3 I4]. unfold rawWindow.
  unfold MINIMUM_WINDOW, MAXIMUM_WINDOW, UNSET in *.
  destruct (100 <? _).
  - rewrite udiv_ok by lia. intros [= <-].
    assert (Hmod : wrap (congWindow c * baseRTT c) <= congWindow c * baseRTT c)
      by (unfold wrap, U32_MOD; apply Z.mod_le; nia).
    assert (Hq : congWindow c * baseRTT c / minRTT c <= congWindow c)
      by (apply Z.div_le_upper_bound; nia).
    pose proof (Z.div_le_mono _ _ (minRTT c) ltac:(lia) Hmod). lia.
  - destruct (50 <? _).
    + intros [= <-]. rewrite wrap_small by (unfold U32_MOD; lia). lia.
    + destruct (_ <? 5);
        [intros [= <-]; rewrite wrap_small by (unfold U32_MOD; lia); lia |].
      destruct (_ <? 25); intros [= <-];
        [rewrite wrap_small by (unfold U32_MOD; lia) |]; lia.
Qed.

Lemma updateCongestion_growth (now : Z) (c c' : CongestionState) :
  inv c -> updateCongestion now c = Ok c' ->
  congWindow c' <= congWindow c + 8192 /\
  (measurements c < 3 -> congWindow c' = congWindow c).
Proof.
  intros I. unfold updateCongestion.
  destruct (Z.ltb_spec (measurements c) 3) as [Hlt | Hge].
  - intros [= <-]. split; [lia | reflexivity].
  - intros H.
    apply bind_ok in H. destruct H as [_ [_ H]].
    apply bind_ok in H. destruct H as [_ [_ H]].
    apply bind_ok in H. destruct H as [w [Hw H]].
    injection H as <-. cbn.
    pose proof (rawWindow_growth c w I Hw) as Hg.
    destruct (clamped_window w) as [_ E]. cbv zeta in E. rewrite E.
    destruct I as [I1 _ _ _].
    unfold clamp, MINIMUM_WINDOW, MAXIMUM_WINDOW in *. split; lia.
Qed.

Lemma gotPong_growth (now t : Z) (c c' : CongestionState) :
  inv c ->
  gotPong now t c = Ok c' ->
  congWindow c' <= congWindow c + 8192 /\
  (0 <= measurements c < 2 -> congWindow c' = congWindow c).
Proof.
  intros I H. unfold gotPong in H.
  destruct (pings c) as [| r rest].
  { injection H as <-. split; [lia | reflexivity]. }
  cbv zeta in H. rewrite measured_rtt in H.
  set (rtt := Z.max 1 (msBetween (tv r) now)) in *.
  assert (Hrtt : 1 <= rtt < U32_MOD).
  { subst rtt. pose proof (msBetween_range (tv r) now).
    unfold U32_MOD in *. lia. }
  clearbody rtt.
  set (c0 := set_lastPongArrival now (set_lastPong r (set_pings rest c))) in H.
  assert (I0 : inv c0) by (subst c0; revert I; same_fields).
  assert (W0 : congWindow c0 = congWindow c /\
               measurements c0 = measurements c)
    by (subst c0; split; reflexivity).
  clearbody c0.
  set (c1 := if rtt <? baseRTT c0 then set_baseRTT rtt c0 else c0) in H.
  assert (I1 : inv c1).
  { subst c1. destruct (Z.ltb_spec rtt (baseRTT c0)); [| exact I0].
    destruct I0 as [J1 J2 J3 J4]. constructor; cbn; unfold UNSET in *; lia. }
  assert (W1 : congWindow c1 = congWindow c /\
               measurements c1 = measurements c)
    by (subst c1; destruct (rtt <? baseRTT c0); exact W0).
  clearbody c1. destruct W1 as [W1 M1].
  destruct (isBefore (tv r) (lastAdjustment c1)).
  { injection H as <-. split; [lia | intros _; exact W1]. }
  apply bind_ok in H. destruct H as [c2 [H2 H]].
  destruct (recordRTT_inv rtt r c1 I1) as [c2' [E2 I2]].
  rewrite E2 in H2. injection H2 as ->.
  pose proof (recordRTT_keeps _ _ _ _ E2) as (_ & _ & _ & _ & _ & K1 & _ & K2).
  destruct (updateCongestion_growth t c2 c' I2 H) as [G1 G2].
  split; [lia |].
  intros Hm. rewrite G2; [lia |].
  rewrite K2, M1. rewrite wrap_small by (unfold U32_MOD; lia). lia.
Qed.

(** X4: one pong enlarges the window by at most 8192 bytes, and does not
    change it unless it is the third measurement since the last adjustment:
    in every state built by the public operations, after [gotPong] the
    window is at most [congWindow + 8192], and it is [congWindow] when fewer
    than two measurements were recorded before. *)
Theorem gotPong_window_growth :
  forall (t_update t_sent t_pong t_adjust : Z) (ks : list call)
         (now now_adjust : Z) (c c' : CongestionState),
    run ks (Congestion t_update t_sent t_pong t_adjust) = Ok c ->
    gotPong now now_adjust c = Ok c' ->
    congWindow c' <= congWindow c + 8192 /\
    (measurements c < 2 -> congWindow c' = congWindow c).
Proof.
  intros t1 t2 t3 t4 ks now t c c' R H.
  assert (I : inv c)
    by (eapply run_keeps_inv; [apply inv_Congestion | exact R]).
  assert (M : 0 <= measurements c <= 2)
    by (eapply run_keeps_measurements; [| exact R]; cbn; lia).
  destruct (gotPong_growth now t c c' I H) as [G1 G2].
  split; [exact G1 |]. intros Hm. apply G2. lia.
Qed.

Lemma gotPong_window_growth_witness :
  exists c c' : CongestionState,
    run starvedCalls (Congestion 0 0 0 0) = Ok c /\
    gotPong 20 20 c = Ok c' /\ congWindow c = 16384 /\
    congWindow c' = 24576 /\ congWindow c' <= congWindow c + 8192.
Proof.
  do 2 eexists. split; [vm_compute; reflexivity |].
  split; [vm_compute; reflexivity |].
  split; [reflexivity |]. split; [reflexivity |].
  apply (gotPong_window_growth 0 0 0 0 starvedCalls 20 20);
    vm_compute; reflexivity.
Defined.

(** ** The order of the queue *)

Lemma monotone_snoc (l : list Z) :
  forall t n : Z,
    monotone t l = true -> t <= n -> Forall (fun x => x <= n) l ->
    monotone t (l ++ [n]) = true.
Proof.
  induction l as [| x l IH]; intros t n Hm Ht Hl; cbn [monotone app] in *.
  - apply andb_true_intro. split; [apply Z.leb_le; exact Ht | reflexivity].
  - apply andb_prop in Hm. destruct Hm as [H1 H2].
    inversion Hl as [| y l' Hx Hl']; subst.
    apply andb_true_intro. split; [exact H1 |]. apply IH; assumption.
Qed.

Lemma ordered_snoc (l : list Z) (n : Z) :
  ordered l = true -> Forall (fun x => x <= n) l -> ordered (l ++ [n]) = true.
Proof.
  destruct l as [| x l]; intros Ho Hl; [reflexivity |].
  inversion Hl as [| y l' Hx Hl']; subst.
  cbn [ordered app] in *. apply monotone_snoc; assumption.
Qed.

Lemma ordered_tail (x : Z) (l : list Z) :
  ordered (x :: l) = true -> ordered l = true.
Proof.
  destruct l as [| y l]; [reflexivity |]. cbn [ordered monotone].
  intros H. apply andb_prop in H. apply H.
Qed.

Lemma Forall_le_trans (l : list Z) (a b : Z) :
  a <= b -> Forall (fun x => x <= a) l -> Forall (fun x => x <= b) l.
Proof.
  intros Hab H. eapply Forall_impl; [| exact H]. cbn. intros x Hx. lia.
Qed.

Lemma sentPing_appends (now t1 t2 : Z) (c c' : CongestionState) :
  sentPing now t1 t2 c = Ok c' ->
  exists r, tv r = now /\ pos r = lastPosition c /\
            c' = set_pings (pings c ++ [r]) c.
Proof.
  unfold sentPing. intros H.
  apply bind_ok in H. destruct H as [e [_ H]].
  apply bind_ok in H. destruct H as [g [_ H]].
  injection H as <-.
  exists {| tv := now; pos := lastPosition c; extra := e; congested := g |}.
  split; [| split]; reflexivity.
Qed.

(** The queue is ordered and no ping is later than the time [T] last read
    from the clock. *)
Lemma step_keeps_order (k : call) (c c' : CongestionState) (T : Z) :
  ordered (map tv (pings c)) = true ->
  Forall (fun x => x <= T) (map tv (pings c)) ->
  monotone T (readings k) = true ->
  step k c = Ok c' ->
  ordered (map tv (pings c')) = true /\
  Forall (fun x => x <= last (readings k) T) (map tv (pings c')).
Proof.
  intros Ho Hb Hm H.
  destruct k as [p now t | now t1 t2 | now t | now | now | now];
    cbn [step readings monotone last] in *;
    repeat match type of Hm with
           | _ && _ = true =>
               let A := fresh "A" in
               apply andb_prop in Hm; destruct Hm as [A Hm];
               apply Z.leb_le in A
           end.
  - apply updatePosition_frame in H. destruct H as (_ & _ & ->).
    split; [exact Ho |]. apply (Forall_le_trans _ T); [lia | exact Hb].
  - apply sentPing_appends in H. destruct H as (r & Hr & _ & ->).
    cbn [pings set_pings]. rewrite map_app. cbn [map]. rewrite Hr.
    split.
    + apply ordered_snoc; [exact Ho |].
      apply (Forall_le_trans _ T); [lia | exact Hb].
    + apply Forall_app. split.
      * apply (Forall_le_trans _ T); [lia | exact Hb].
      * constructor; [lia | constructor].
  - apply gotPong_frame in H.
    destruct H as (_ & [[_ ->] | (r & rest & Hp & _ & ->)]).
    + split; [exact Ho |]. apply (Forall_le_trans _ T); [lia | exact Hb].
    + rewrite Hp in Ho, Hb. cbn [map] in Ho, Hb.
      split; [eapply ordered_tail; exact Ho |].
      inversion Hb as [| y l' Hx Hl']; subst.
      apply (Forall_le_trans _ T); [lia | exact Hl'].
  - apply bind_ok in H. destruct H as [_ [_ [= <-]]].
    split; [exact Ho |]. apply (Forall_le_trans _ T); [lia | exact Hb].
  - apply bind_ok in H. destruct H as [_ [_ [= <-]]].
    split; [exact Ho |]. apply (Forall_le_trans _ T); [lia | exact Hb].
  - apply bind_ok in H. destruct H as [_ [_ [= <-]]].
    split; [exact Ho |]. apply (Forall_le_trans _ T); [lia | exact Hb].
Qed.

Lemma last_cons_default (l : list Z) :
  forall a d d' : Z, last (a :: l) d = last (a :: l) d'.
Proof.
  induction l as [| b l IH]; intros a d d'; [reflexivity |].
  change (last (a :: b :: l) d) with (last (b :: l) d).
  change (last (a :: b :: l) d') with (last (b :: l) d').
  apply IH.
Qed.

Lemma monotone_app (l1 l2 : list Z) :
  forall t : Z,
    monotone t (l1 ++ l2) = true ->
    monotone t l1 = true /\ monotone (last l1 t) l2 = true.
Proof.
  induction l1 as [| x l1 IH]; intros t H; cbn [app monotone] in *.
  - split; [reflexivity | exact H].
  - apply andb_prop in H. destruct H as [H1 H2].
    destruct (IH x H2) as [G1 G2]. split.
    + rewrite H1, G1. reflexivity.
    + destruct l1 as [| y l1]; [exact G2 |].
      change (last (x :: y :: l1) t) with (last (y :: l1) t).
      rewrite (last_cons_default l1 y t x). exact G2.
Qed.

Lemma run_keeps_order (ks : list call) :
  forall (c c' : CongestionState) (T : Z),
    ordered (map tv (pings c)) = true ->
    Forall (fun x => x <= T) (map tv (pings c)) ->
    monotone T (flat_map readings ks) = true ->
    run ks c = Ok c' ->
    ordered (map tv (pings c')) = true.
Proof.
  induction ks as [| k ks IH]; intros c c' T Ho Hb Hm H;
    cbn [run flat_map] in *.
  - injection H as <-. exact Ho.
  - apply bind_ok in H. destruct H as [c1 [H1 H2]].
    apply monotone_app in Hm. destruct Hm as [M1 M2].
    destruct (step_keeps_order k c c1 T Ho Hb M1 H1) as [Ho1 Hb1].
    eapply IH; eassumption.
Qed.

(** X6: when the clock never goes back, the pings of the queue are in the
    order of their time stamps: after any sequence of calls on a fresh
    controller, the time stamps of the queue, from the oldest ping to the
    newest, never decrease. *)
Theorem pings_ordered_by_time :
  forall (t_update t_sent t_pong t_adjust : Z) (ks : list call)
         (c : CongestionState),
    monotone t_update
      (t_sent :: t_pong :: t_adjust :: flat_map readings ks) = true ->
    run ks (Congestion t_update t_sent t_pong t_adjust) = Ok c ->
    ordered (map tv (pings c)) = true.
Proof.
  intros t1 t2 t3 t4 ks c Hm H.
  cbn [monotone] in Hm.
  apply andb_prop in Hm. destruct Hm as [_ Hm].
  apply andb_prop in Hm. destruct Hm as [_ Hm].
  apply andb_prop in Hm. destruct Hm as [_ Hm].
  apply (run_keeps_order ks (Congestion t1 t2 t3 t4) c t4);
    [reflexivity | constructor | exact Hm | exact H].
Qed.

Lemma pings_ordered_by_time_witness :
  exists c : CongestionState,
    run [ SentPing 1 1 1; UpdatePosition 500 2 2; SentPing 3 3 4;
          SentPing 4 5 5 ] (Congestion 0 0 0 1) = Ok c /\
    map tv (pings c) = [1; 3; 4] /\
    ordered (map tv (pings c)) = true.
Proof.
  eexists. split; [vm_compute; reflexivity |]. split; [reflexivity |].
  apply (pings_ordered_by_time 0 0 0 1
           [ SentPing 1 1 1; UpdatePosition 500 2 2; SentPing 3 3 4;
             SentPing 4 5 5 ]); vm_compute; reflexivity.
Defined.

(** ** The extra buffer *)

Lemma wrap_div_nonneg (x b : Z) : 0 < b -> 0 <= wrap x / b.
Proof.
  intros Hb. apply Z.div_pos; [apply wrap_range | exact Hb].
Qed.

Lemma rfbmax_at_least (a : Z) : 100 <= rfbmax a 100.
Proof. unfold rfbmax. destruct (Z.ltb_spec 100 a); lia. Qed.

Lemma idle_not_after_write (now : Z) (c : CongestionState) :
  idleTooLong now (set_lastSent now c) = false.
Proof.
  unfold idleTooLong, msBetween. cbn [lastSent set_lastSent baseRTT].
  rewrite Z.sub_diag. change (wrap 0) with 0.
  pose proof (rfbmax_at_least (wrap (baseRTT c * 2))).
  destruct (Z.ltb_spec (rfbmax (wrap (baseRTT c * 2)) 100) 0);
    [lia | reflexivity].
Qed.

(** X7: [getExtraBuffer] never reports more than the stored extra buffer:
    with a base round trip time of at least 1 ms and a stored extra buffer
    that is not negative, it returns a value between 0 and [extraBuffer],
    and 0 while the base round trip time is unknown. *)
Theorem getExtraBuffer_bounds :
  forall (now : Z) (c : CongestionState),
    0 < baseRTT c ->
    0 <= extraBuffer c ->
    exists e : Z,
      getExtraBuffer now c = Ok e /\
      0 <= e <= extraBuffer c /\
      (baseRTT c = UNSET -> e = 0).
Proof.
  intros now c Hb He. unfold getExtraBuffer.
  destruct (Z.eqb_spec (baseRTT c) UNSET) as [E | E].
  - exists 0. split; [reflexivity |]. split; [lia | reflexivity].
  - rewrite udiv_ok by lia. cbn [bind].
    set (consumed := _ / baseRTT c).
    assert (Hc : 0 <= consumed) by (apply wrap_div_nonneg; exact Hb).
    clearbody consumed. eexists. split; [reflexivity |].
    split; [| contradiction].
    destruct (Z.leb_spec (extraBuffer c) consumed); lia.
Qed.

Lemma getExtraBuffer_bounds_witness :
  let c := stateAfter [ SentPing 0 0 0; GotPong 10 10;
                        UpdatePosition 30000 10 10 ] in
  extraBuffer c = 13616 /\
  exists e : Z,
    getExtraBuffer 15 c = Ok e /\
    0 <= e <= extraBuffer c /\
    (baseRTT c = UNSET -> e = 0).
Proof.
  cbv zeta. split; [reflexivity |].
  apply getExtraBuffer_bounds; vm_compute; [reflexivity | discriminate].
Defined.

(** X8: [getExtraBuffer] predicts what [updatePosition] stores: when the
    base round trip time is known, a call of [updatePosition] that reports
    no new byte (the position is [lastPosition]) returns and leaves in
    [extraBuffer] exactly the value that [getExtraBuffer] returns for the
    same reading of the clock. *)
Theorem updatePosition_stores_getExtraBuffer :
  forall (now now_adjust : Z) (c : CongestionState),
    0 < baseRTT c ->
    baseRTT c <> UNSET ->
    0 <= extraBuffer c < U32_MOD ->
    exists c' : CongestionState,
      updatePosition (lastPosition c) now now_adjust c = Ok c' /\
      getExtraBuffer now c = Ok (extraBuffer c').
Proof.
  intros now t c Hb Hset He.
  set (consumed := wrap (msBetween (lastUpdate c) now * congWindow c)
                   / baseRTT c).
  assert (Hc : 0 <= consumed) by (apply wrap_div_nonneg; exact Hb).
  assert (Hg : getExtraBuffer now c =
               Ok (if extraBuffer c <=? consumed then 0
                   else extraBuffer c - consumed)).
  { unfold getExtraBuffer.
    destruct (Z.eqb_spec (baseRTT c) UNSET) as [E | _]; [contradiction |].
    rewrite udiv_ok by lia. reflexivity. }
  rewrite Hg. clear Hg.
  unfold updatePosition.
  rewrite Z.sub_diag. change (wrap 0) with 0. rewrite Z.ltb_irrefl.
  cbn [orb].
  destruct (Z.ltb_spec 0 (extraBuffer c)) as [Hpos | Hzero].
  - rewrite idle_not_after_write.
    cbn [baseRTT extraBuffer lastUpdate congWindow set_lastSent].
    destruct (Z.eqb_spec (baseRTT c) UNSET) as [E | _]; [contradiction |].
    rewrite udiv_ok by lia. cbn [bind]. fold consumed.
    rewrite Z.add_0_r, wrap_small by exact He.
    eexists. split; [reflexivity |]. cbn.
    destruct (Z.ltb_spec (extraBuffer c) consumed);
      destruct (Z.leb_spec (extraBuffer c) consumed); try reflexivity;
      f_equal; lia.
  - assert (E0 : extraBuffer c = 0) by lia.
    assert (Hle : (extraBuffer c <=? consumed) = true)
      by (apply Z.leb_le; lia).
    rewrite Hle.
    destruct (idleTooLong now c).
    + cbn. eexists. split; [reflexivity |]. cbn. rewrite E0. reflexivity.
    + destruct (Z.eqb_spec (baseRTT c) UNSET) as [E | _]; [contradiction |].
      rewrite udiv_ok by lia. cbn [bind]. fold consumed.
      eexists. split; [reflexivity |]. cbn.
      rewrite E0. change (wrap (0 + 0)) with 0.
      destruct (Z.ltb_spec 0 consumed); [reflexivity | f_equal; lia].
Qed.

Lemma updatePosition_stores_getExtraBuffer_witness :
  let c := stateAfter [ SentPing 0 0 0; GotPong 10 10;
                        UpdatePosition 30000 10 10 ] in
  extraBuffer c = 13616 /\
  getExtraBuffer 15 c = Ok 5424 /\
  exists c' : CongestionState,
    updatePosition (lastPosition c) 15 15 c = Ok c' /\
    getExtraBuffer 15 c = Ok (extraBuffer c').
Proof.
  cbv zeta. split; [reflexivity |]. split; [reflexivity |].
  apply updatePosition_stores_getExtraBuffer; vm_compute;
    [reflexivity | discriminate | split; [discriminate | reflexivity]].
Defined.

(** ** Idle detection *)

(** X9: a call of [updatePosition] that reports new bytes, or that is made
    while the extra buffer is not empty, is never taken for an idle
    connection: it stores the time in [lastSent] and leaves the base round
    trip time, the window, the batch of measurements and the time of the
    last adjustment as they were. *)
Theorem updatePosition_progress_never_resets :
  forall (p now now_adjust : Z) (c c' : CongestionState),
    0 < wrap (p - lastPosition c) \/ 0 < extraBuffer c ->
    updatePosition p now now_adjust c = Ok c' ->
    lastSent c' = now /\ lastPosition c' = p /\ lastUpdate c' = now /\
    baseRTT c' = baseRTT c /\ congWindow c' = congWindow c /\
    measurements c' = measurements c /\ minRTT c' = minRTT c /\
    minCongestedRTT c' = minCongestedRTT c /\
    lastAdjustment c' = lastAdjustment c.
Proof.
  intros p now t c c' Hprog H. unfold updatePosition in H.
  assert (Hor : (0 <? wrap (p - lastPosition c)) || (0 <? extraBuffer c)
                = true).
  { apply orb_true_iff. destruct Hprog as [Hd | He];
      [left | right]; apply Z.ltb_lt; assumption. }
  rewrite Hor in H. rewrite idle_not_after_write in H.
  apply bind_ok in H. destruct H as [c1 [H1 H]].
  injection H as <-. cbn.
  revert H1. cbn [baseRTT set_lastSent].
  destruct (baseRTT c =? UNSET).
  - intros [= <-]. repeat split.
  - intros H1. apply bind_ok in H1. destruct H1 as [consumed [_ H1]].
    injection H1 as <-. repeat split.
Qed.

Lemma updatePosition_progress_never_resets_witness :
  let c := stateAfter [ SentPing 0 0 0; GotPong 10 10 ] in
  exists c' : CongestionState,
    baseRTT c = 10 /\ lastSent c = 0 /\
    updatePosition 5000 900 900 c = Ok c' /\
    (lastSent c' = 900 /\ lastPosition c' = 5000 /\ lastUpdate c' = 900 /\
     baseRTT c' = baseRTT c /\ congWindow c' = congWindow c /\
     measurements c' = measurements c /\ minRTT c' = minRTT c /\
     minCongestedRTT c' = minCongestedRTT c /\
     lastAdjustment c' = lastAdjustment c).
Proof.
  cbv zeta. eexists. split; [reflexivity |]. split; [reflexivity |].
  split; [vm_compute; reflexivity |].
  apply (updatePosition_progress_never_resets 5000 900 900
           (stateAfter [ SentPing 0 0 0; GotPong 10 10 ])).
  - left. vm_compute. reflexivity.
  - vm_compute. reflexivity.
Defined.

Lemma idleTooLong_set (now : Z) (c : CongestionState) :
  0 <= baseRTT c < 2147483648 ->
  idleTooLong now c = (Z.max (2 * baseRTT c) 100 <? msBetween (lastSent c) now).
Proof.
  intros Hb. unfold idleTooLong, rfbmax.
  rewrite wrap_small by (unfold U32_MOD; lia).
  replace (baseRTT c * 2) with (2 * baseRTT c) by lia.
  destruct (Z.ltb_spec 100 (2 * baseRTT c)).
  - rewrite Z.max_l by lia. reflexivity.
  - rewrite Z.max_r by lia. reflexivity.
Qed.

(** X10: with a known base round trip time below 2^31 ms, a call of
    [updatePosition] that reports no new byte while the extra buffer is
    empty resets the controller exactly when more than
    max(2 * baseRTT, 100) ms passed since [lastSent]: then the base round
    trip time and both minima become unknown, the window becomes
    min(INITIAL_WINDOW, congWindow), the measurements 0 and
    [lastAdjustment] the time of the reset; otherwise the base round trip
    time, the window and the time of the last adjustment stay. *)
Theorem updatePosition_idle_reset :
  forall (now now_adjust : Z) (c : CongestionState),
    0 < baseRTT c < 2147483648 ->
    extraBuffer c = 0 ->
    exists c' : CongestionState,
      updatePosition (lastPosition c) now now_adjust c = Ok c' /\
      lastSent c' = lastSent c /\
      (Z.max (2 * baseRTT c) 100 < msBetween (lastSent c) now ->
         baseRTT c' = UNSET /\
         congWindow c' = Z.min INITIAL_WINDOW (congWindow c) /\
         measurements c' = 0 /\ minRTT c' = UNSET /\
         minCongestedRTT c' = UNSET /\ lastAdjustment c' = now_adjust) /\
      (msBetween (lastSent c) now <= Z.max (2 * baseRTT c) 100 ->
         baseRTT c' = baseRTT c /\ congWindow c' = congWindow c /\
         measurements c' = measurements c /\
         lastAdjustment c' = lastAdjustment c).
Proof.
  intros now t c Hb He. unfold updatePosition.
  rewrite Z.sub_diag. change (wrap 0) with 0. rewrite He.
  cbn [Z.ltb Z.compare orb].
  rewrite idleTooLong_set by lia.
  set (limit := Z.max (2 * baseRTT c) 100).
  set (idle := msBetween (lastSent c) now).
  clearbody limit idle.
  destruct (Z.ltb_spec limit idle) as [Hidle | Hbusy].
  - cbn. eexists. split; [reflexivity |]. cbn.
    split; [reflexivity |]. split; [| intros Hc; exfalso; lia]. intros _.
    repeat split. unfold rfbmin, INITIAL_WINDOW.
    destruct (Z.ltb_spec 16384 (congWindow c)); lia.
  - destruct (Z.eqb_spec (baseRTT c) UNSET) as [E | _];
      [unfold UNSET in E; lia |].
    rewrite udiv_ok by lia. cbn [bind].
    eexists. split; [reflexivity |]. cbn.
    split; [reflexivity |]. split; [intros Hc; exfalso; lia |].
    intros _. repeat split.
Qed.

Lemma updatePosition_idle_reset_witness :
  let c := stateAfter [ SentPing 0 0 0; SentPing 0 0 0; GotPong 60 60;
                        GotPong 60 60 ] in
  baseRTT c = 60 /\ measurements c = 2 /\ lastSent c = 0 /\
  exists c' : CongestionState,
    updatePosition (lastPosition c) 121 121 c = Ok c' /\
    lastSent c' = lastSent c /\
    (Z.max (2 * baseRTT c) 100 < msBetween (lastSent c) 121 ->
       baseRTT c' = UNSET /\
       congWindow c' = Z.min INITIAL_WINDOW (congWindow c) /\
       measurements c' = 0 /\ minRTT c' = UNSET /\
       minCongestedRTT c' = UNSET /\ lastAdjustment c' = 121) /\
    (msBetween (lastSent c) 121 <= Z.max (2 * baseRTT c) 100 ->
       baseRTT c' = baseRTT c /\ congWindow c' = congWindow c /\
       measurements c' = measurements c /\
       lastAdjustment c' = lastAdjustment c).
Proof.
  cbv zeta. split; [reflexivity |]. split; [reflexivity |].
  split; [reflexivity |].
  apply updatePosition_idle_reset; vm_compute;
    [split; reflexivity | reflexivity].
Defined.

(** ** The bytes in flight *)

Lemma wrap_back (L E a : Z) :
  0 <= a <= E -> E < U32_MOD ->
  wrap (L - wrap (wrap (L - E) + a)) = E - a.
Proof.
  intros Ha HE. unfold wrap.
  rewrite Zplus_mod_idemp_l, Zminus_mod_idemp_r.
  replace (L - (L - E + a)) with (E - a) by ring.
  apply Z.mod_small. lia.
Qed.

(** X11: with a known base round trip time and no ping in the queue,
    [getInFlight] estimates from the extra buffer alone: it returns a value
    between 0 and [extraBuffer], and, when [lastPosition] differs from
    [lastPong.pos], the whole of [extraBuffer] as long as no more than
    [baseRTT] ms passed since the last update. *)
Theorem getInFlight_without_pings :
  forall (now : Z) (c : CongestionState),
    0 < baseRTT c ->
    baseRTT c <> UNSET ->
    pings c = [] ->
    0 <= extraBuffer c < U32_MOD ->
    exists n : Z,
      getInFlight now c = Ok n /\
      0 <= n <= extraBuffer c /\
      (lastPosition c <> pos (lastPong c) ->
       msBetween (lastUpdate c) now <= baseRTT c ->
       n = extraBuffer c).
Proof.
  intros now c Hb Hset Hq He. unfold getInFlight. rewrite Hq.
  destruct (Z.eqb_spec (lastPosition c) (pos (lastPong c))) as [E | E].
  { exists 0. split; [reflexivity |]. split; [lia | contradiction]. }
  destruct (Z.eqb_spec (baseRTT c) UNSET) as [U | _]; [contradiction |].
  destruct (Z.leb_spec (msBetween (lastUpdate c) now) (baseRTT c))
    as [Hearly | Hlate]; cbn [bind].
  - destruct (Z.ltb_spec (extraBuffer c) 0); [lia |].
    rewrite wrap_back by lia.
    eexists. split; [reflexivity |]. split; [lia |]. intros _ _. lia.
  - rewrite udiv_ok by lia. cbn [bind].
    set (acked := _ / baseRTT c).
    assert (Ha : 0 <= acked) by (apply wrap_div_nonneg; exact Hb).
    clearbody acked.
    destruct (Z.ltb_spec (extraBuffer c) acked).
    + rewrite wrap_back by lia.
      eexists. split; [reflexivity |]. split; [lia |]. intros _ Hc. lia.
    + rewrite wrap_back by lia.
      eexists. split; [reflexivity |]. split; [lia |]. intros _ Hc. lia.
Qed.

Lemma getInFlight_without_pings_witness :
  let c := stateAfter [ SentPing 0 0 0; GotPong 10 10;
                        UpdatePosition 30000 10 10 ] in
  extraBuffer c = 13616 /\
  getInFlight 25 c = Ok 5424 /\
  exists n : Z,
    getInFlight 25 c = Ok n /\
    0 <= n <= extraBuffer c /\
    (lastPosition c <> pos (lastPong c) ->
     msBetween (lastUpdate c) 25 <= baseRTT c ->
     n = extraBuffer c).
Proof.
  cbv zeta. split; [reflexivity |]. split; [reflexivity |].
  apply getInFlight_without_pings; vm_compute;
    [reflexivity | discriminate | reflexivity |
     split; [discriminate | reflexivity]].
Defined.

(** X12: with a known base round trip time and a ping in the queue,
    [getInFlight] interpolates between the last pong and the next one: when
    the positions are in order ([lastPong.pos <= nextPong.pos <=
    lastPosition]) and [lastPosition] differs from [lastPong.pos], it
    returns a value between [lastPosition - nextPong.pos] and
    [lastPosition - lastPong.pos]. *)
Theorem getInFlight_between_pongs :
  forall (now : Z) (c : CongestionState) (nextPong : RTTInfo)
         (rest : list RTTInfo),
    congWindow c <> 0 ->
    baseRTT c <> UNSET ->
    pings c = nextPong :: rest ->
    0 <= pos (lastPong c) <= pos nextPong ->
    pos nextPong <= lastPosition c < U32_MOD ->
    lastPosition c <> pos (lastPong c) ->
    exists n : Z,
      getInFlight now c = Ok n /\
      lastPosition c - pos nextPong <= n <= lastPosition c - pos (lastPong c).
Proof.
  intros now c nextPong rest Hw Hset Hq Hp1 Hp2 Hne.
  unfold getInFlight. rewrite Hq.
  destruct (Z.eqb_spec (lastPosition c) (pos (lastPong c))) as [E | _];
    [contradiction |].
  destruct (Z.eqb_spec (baseRTT c) UNSET) as [U | _]; [contradiction |].
  rewrite !udiv_ok by exact Hw. cbn [bind].
  match goal with |- context [if ?a <=? ?b then 0 else _] =>
    set (etaNext := if a <=? b then 0 else _) end.
  clearbody etaNext.
  pose proof (msBetween_range (lastPongArrival c) now) as Hr.
  set (elapsed := msBetween (lastPongArrival c) now) in *. clearbody elapsed.
  destruct (Z.leb_spec etaNext elapsed) as [Hdue | Hwait]; cbn [bind].
  - rewrite wrap_small by lia. eexists. split; [reflexivity |]. lia.
  - rewrite udiv_ok by lia. cbn [bind].
    rewrite (wrap_small (pos nextPong - pos (lastPong c))) by lia.
    set (d := pos nextPong - pos (lastPong c)) in *.
    assert (Hd : 0 <= d) by (subst d; lia).
    set (q := wrap (d * elapsed) / etaNext).
    assert (Hq0 : 0 <= q) by (subst q; apply wrap_div_nonneg; lia).
    assert (Hq1 : q <= d).
    { subst q.
      assert (Hmod : wrap (d * elapsed) <= d * elapsed)
        by (unfold wrap, U32_MOD; apply Z.mod_le; nia).
      pose proof (Z.div_le_mono _ _ etaNext ltac:(lia) Hmod) as Hdiv.
      assert (Hup : d * elapsed / etaNext <= d)
        by (apply Z.div_le_upper_bound; nia).
      lia. }
    clearbody q.
    rewrite (wrap_small (pos (lastPong c) + q)) by (subst d; lia).
    rewrite wrap_small by (subst d; lia).
    eexists. split; [reflexivity |]. subst d. lia.
Qed.

Lemma getInFlight_between_pongs_witness :
  let c := stateAfter [ UpdatePosition 1000 0 0; SentPing 0 0 0;
                        GotPong 10 10; UpdatePosition 9000 12 12;
                        SentPing 30 30 30; UpdatePosition 12000 31 31 ] in
  getInFlight 40 c = Ok 3000 /\
  getInFlight 20 c = Ok 8334 /\
  exists n : Z,
    getInFlight 20 c = Ok n /\
    lastPosition c - 9000 <= n <= lastPosition c - pos (lastPong c).
Proof.
  cbv zeta. split; [reflexivity |]. split; [reflexivity |].
  apply (getInFlight_between_pongs 20
    (stateAfter [ UpdatePosition 1000 0 0; SentPing 0 0 0;
                  GotPong 10 10; UpdatePosition 9000 12 12;
                  SentPing 30 30 30; UpdatePosition 12000 31 31 ])
    {| tv := 30; pos := 9000; extra := 0; congested := false |} []).
  - vm_compute. discriminate.
  - vm_compute. discriminate.
  - vm_compute. reflexivity.
  - vm_compute. split; discriminate.
  - vm_compute. split; [discriminate | reflexivity].
  - vm_compute. discriminate.
Defined.

(** X13: when the pong arrives for a ping that was sent at the position
    written last, nothing is in flight any more: after [gotPong] on a queue
    whose oldest ping has the position [lastPosition], [getInFlight] returns
    0, [isCongested] is false when the window is not empty, and
    [getUncongestedETA] returns 0 when at least a window of bytes was
    written. *)
Theorem nothing_in_flight_after_last_pong :
  forall (now now_adjust t : Z) (c c' : CongestionState) (r : RTTInfo)
         (rest : list RTTInfo),
    pings c = r :: rest ->
    pos r = lastPosition c ->
    gotPong now now_adjust c = Ok c' ->
    getInFlight t c' = Ok 0 /\
    (0 < congWindow c' -> isCongested t c' = Ok false) /\
    (0 < congWindow c' <= lastPosition c' -> lastPosition c' < U32_MOD ->
     getUncongestedETA t c' = Ok 0).
Proof.
  intros now adj t c c' r rest Hq Hpos H.
  apply gotPong_frame in H.
  destruct H as (F1 & [[Hnil _] | (r' & rest' & Hq' & F2 & _)]).
  { rewrite Hq in Hnil. discriminate. }
  rewrite Hq in Hq'. injection Hq' as <- <-.
  assert (E : getInFlight t c' = Ok 0).
  { unfold getInFlight. rewrite F1, F2, Hpos, Z.eqb_refl. reflexivity. }
  split; [exact E |]. split.
  - intros Hw. unfold isCongested. rewrite E. cbn [bind].
    destruct (Z.ltb_spec 0 (congWindow c')); [reflexivity | lia].
  - intros Hw Hr. apply getUncongestedETA_simple_case.
    rewrite wrap_small by lia. rewrite F2, Hpos, <- F1. lia.
Qed.

Lemma nothing_in_flight_after_last_pong_witness :
  let c := stateAfter [ SentPing 0 0 0; GotPong 10 10;
                        UpdatePosition 40000 10 10; SentPing 11 11 11 ] in
  exists c' : CongestionState,
    getInFlight 30 c = Ok 6667 /\
    gotPong 30 30 c = Ok c' /\
    (getInFlight 30 c' = Ok 0 /\
     (0 < congWindow c' -> isCongested 30 c' = Ok false) /\
     (0 < congWindow c' <= lastPosition c' -> lastPosition c' < U32_MOD ->
      getUncongestedETA 30 c' = Ok 0)).
Proof.
  cbv zeta. eexists. split; [reflexivity |].
  split; [vm_compute; reflexivity |].
  eapply (nothing_in_flight_after_last_pong 30 30 30
            (stateAfter [ SentPing 0 0 0; GotPong 10 10;
                          UpdatePosition 40000 10 10; SentPing 11 11 11 ]));
    vm_compute; reflexivity.
Defined.

(** X14: a ping sent while another one is waiting for its pong does not
    change the estimate of the bytes in flight, which looks at the oldest
    ping only: after [sentPing] on a queue that is not empty,
    [getInFlight] and [isCongested] return what they returned before. *)
Theorem sentPing_keeps_in_flight :
  forall (now now_extra now_flight t : Z) (c c' : CongestionState),
    pings c <> [] ->
    sentPing now now_extra now_flight c = Ok c' ->
    getInFlight t c' = getInFlight t c /\
    isCongested t c' = isCongested t c.
Proof.
  intros now t1 t2 t c c' Hq H.
  apply sentPing_appends in H. destruct H as (r & _ & _ & ->).
  assert (E : getInFlight t (set_pings (pings c ++ [r]) c) = getInFlight t c).
  { unfold getInFlight. cbn [lastPosition lastPong baseRTT congWindow
      extraBuffer lastUpdate lastPongArrival pings set_pings].
    destruct (pings c) as [| x l]; [contradiction | reflexivity]. }
  split; [exact E |].
  unfold isCongested. rewrite E. reflexivity.
Qed.

Lemma sentPing_keeps_in_flight_witness :
  let c := stateAfter [ UpdatePosition 1000 0 0; SentPing 0 0 0;
                        GotPong 10 10; UpdatePosition 9000 12 12;
                        SentPing 30 30 30; UpdatePosition 12000 31 31 ] in
  exists c' : CongestionState,
    sentPing 32 32 32 c = Ok c' /\
    getInFlight 35 c = Ok 4334 /\
    (getInFlight 35 c' = getInFlight 35 c /\
     isCongested 35 c' = isCongested 35 c).
Proof.
  cbv zeta. eexists. split; [vm_compute; reflexivity |].
  split; [reflexivity |].
  eapply (sentPing_keeps_in_flight 32 32 32 35
            (stateAfter [ UpdatePosition 1000 0 0; SentPing 0 0 0;
                          GotPong 10 10; UpdatePosition 9000 12 12;
                          SentPing 30 30 30; UpdatePosition 12000 31 31 ])).
  - vm_compute. discriminate.
  - vm_compute. reflexivity.
Defined.

(** ** The two minima of a batch *)








(** ** The time to wait once a window was written *)

(** X16: once at least a window of bytes was written, the time to wait is
    defined: in every reachable state with [congWindow <= lastPosition],
    [getUncongestedETA] returns (no division is by zero), and while the
    base round trip time is unknown it returns 0 or -1. *)
Theorem getUncongestedETA_returns_after_a_window :
  forall (now : Z) (c : CongestionState),
    reachable c ->
    congWindow c <= lastPosition c ->
    exists r : Z,
      getUncongestedETA now c = Ok r /\
      (baseRTT c = UNSET -> r = 0 \/ r = -1).
Proof.
  intros now c R Hw.
  destruct (getUncongestedETA_total now c R Hw) as [r E].
  exists r. split; [exact E |].
  intros U. revert E. unfold getUncongestedETA. rewrite U.
  destruct (_ <? pos (lastPong c)); cbn; intros [= <-]; auto.
Qed.

Lemma getUncongestedETA_returns_after_a_window_witness :
  let c := stateAfter burstAfterPong in
  getUncongestedETA 10 c = Ok 9 /\
  exists r : Z,
    getUncongestedETA 10 c = Ok r /\
    (baseRTT c = UNSET -> r = 0 \/ r = -1).
Proof.
  cbv zeta. split; [reflexivity |].
  apply getUncongestedETA_returns_after_a_window.
  - concrete_reachable.
  - vm_compute. discriminate.
Defined.

(** ** The time to wait and later pings *)

Lemma etaWalk_set_pings (q : list RTTInfo) (c : CongestionState)
    (targetAcked elapsed : Z) (queue : list RTTInfo) :
  forall (prev : RTTInfo) (eta : Z),
    etaWalk (set_pings q c) targetAcked elapsed prev eta queue =
    etaWalk c targetAcked elapsed prev eta queue.
Proof.
  induction queue as [| iter rest IH]; intros prev eta; cbn [etaWalk].
  - reflexivity.
  - change (etaInterval (set_pings q c) prev (tv iter) (extra iter))
      with (etaInterval c prev (tv iter) (extra iter)).
    destruct (etaInterval c prev (tv iter) (extra iter)) as [e | f];
      cbn [bind]; [| reflexivity].
    destruct (targetAcked <? pos iter); [reflexivity | apply IH].
Qed.

(** The walk stops at the first ping beyond the target: what follows it in
    the queue is not looked at. *)
Lemma etaWalk_stops (c : CongestionState) (targetAcked elapsed : Z)
    (l1 : list RTTInfo) (iter : RTTInfo) (l2 l2' : list RTTInfo) :
  targetAcked < pos iter ->
  forall (prev : RTTInfo) (eta : Z),
    etaWalk c targetAcked elapsed prev eta (l1 ++ iter :: l2) =
    etaWalk c targetAcked elapsed prev eta (l1 ++ iter :: l2').
Proof.
  intros Hlt. induction l1 as [| x l1 IH]; intros prev eta;
    cbn [app etaWalk].
  - destruct (etaInterval c prev (tv iter) (extra iter)) as [e | f];
      cbn [bind]; [| reflexivity].
    destruct (Z.ltb_spec targetAcked (pos iter)); [reflexivity | lia].
  - destruct (etaInterval c prev (tv x) (extra x)) as [e | f];
      cbn [bind]; [| reflexivity].
    destruct (targetAcked <? pos x); [reflexivity | apply IH].
Qed.

(** X18: a ping sent while the queue already holds a ping whose position is
    beyond the target [lastPosition - congWindow] does not change the time
    to wait: [getUncongestedETA] returns after [sentPing] what it returned
    before, a fault included. *)
Theorem sentPing_keeps_eta :
  forall (now now_extra now_flight t : Z) (c c' : CongestionState)
         (l1 : list RTTInfo) (iter : RTTInfo) (l2 : list RTTInfo),
    pings c = l1 ++ iter :: l2 ->
    wrap (lastPosition c - congWindow c) < pos iter ->
    sentPing now now_extra now_flight c = Ok c' ->
    getUncongestedETA t c' = getUncongestedETA t c.
Proof.
  intros now t1 t2 t c c' l1 iter l2 Hq Hlt H.
  apply sentPing_appends in H. destruct H as (r & _ & _ & ->).
  unfold getUncongestedETA.
  cbn [lastPosition congWindow lastPong baseRTT lastPongArrival pings
       set_pings].
  destruct (_ <? pos (lastPong c)); [reflexivity |].
  destruct (baseRTT c =? UNSET); [reflexivity |].
  rewrite etaWalk_set_pings. rewrite Hq. rewrite <- app_assoc.
  cbn [app]. apply etaWalk_stops. exact Hlt.
Qed.

Lemma sentPing_keeps_eta_witness :
  let c := stateAfter [ UpdatePosition 1000 0 0; SentPing 0 0 0;
                        GotPong 10 10; UpdatePosition 30000 12 12;
                        SentPing 14 14 14 ] in
  exists c' : CongestionState,
    sentPing 15 15 15 c = Ok c' /\
    getUncongestedETA 16 c = Ok 3 /\
    getUncongestedETA 16 c' = getUncongestedETA 16 c.
Proof.
  cbv zeta. eexists. split; [vm_compute; reflexivity |].
  split; [reflexivity |].
  eapply (sentPing_keeps_eta 15 15 15 16
            (stateAfter [ UpdatePosition 1000 0 0; SentPing 0 0 0;
                          GotPong 10 10; UpdatePosition 30000 12 12;
                          SentPing 14 14 14 ]) _ []).
  - vm_compute. reflexivity.
  - vm_compute. reflexivity.
  - vm_compute. reflexivity.
Defined.

(** ** How much one update adds to the extra buffer *)

(** X19: one call of [updatePosition] adds at most the newly written bytes
    to the extra buffer: with a base round trip time of at least 1 ms (or
    unknown) and an extra buffer that, with the new bytes, still fits 32
    bits, the call returns with an extra buffer between 0 and
    [extraBuffer + (pos - lastPosition)]. *)
Theorem updatePosition_extraBuffer_growth :
  forall (p now now_adjust : Z) (c : CongestionState),
    0 < baseRTT c ->
    0 <= extraBuffer c ->
    extraBuffer c + wrap (p - lastPosition c) < U32_MOD ->
    exists c' : CongestionState,
      updatePosition p now now_adjust c = Ok c' /\
      0 <= extraBuffer c' <= extraBuffer c + wrap (p - lastPosition c).
Proof.
  intros p now t c Hb He Hsum. unfold updatePosition.
  pose proof (wrap_range (p - lastPosition c)) as Hd.
  set (delta := wrap (p - lastPosition c)) in *. clearbody delta.
  set (c1 := if _ || _ then set_lastSent now c else c).
  assert (F1 : baseRTT c1 = baseRTT c /\ extraBuffer c1 = extraBuffer c)
    by (subst c1; destruct (_ || _); split; reflexivity).
  clearbody c1. destruct F1 as [B1 E1].
  set (c2 := if idleTooLong now c1 then idleReset t c1 else c1).
  assert (F2 : 0 < baseRTT c2 /\ extraBuffer c2 = extraBuffer c).
  { subst c2. destruct (idleTooLong now c1).
    - cbn. split; [unfold UNSET; lia | exact E1].
    - rewrite B1, E1. split; [exact Hb | reflexivity]. }
  clearbody c2. destruct F2 as [B2 E2].
  destruct (baseRTT c2 =? UNSET); cbn [bind].
  - eexists. split; [reflexivity |]. cbn. rewrite E2. lia.
  - rewrite udiv_ok by lia. cbn [bind].
    set (consumed := _ / baseRTT c2).
    assert (Hc : 0 <= consumed) by (apply wrap_div_nonneg; exact B2).
    clearbody consumed.
    eexists. split; [reflexivity |]. cbn. rewrite E2.
    rewrite wrap_small by lia.
    destruct (Z.ltb_spec (extraBuffer c + delta) consumed); lia.
Qed.

Lemma updatePosition_extraBuffer_growth_witness :
  let c := stateAfter [ SentPing 0 0 0; GotPong 10 10;
                        UpdatePosition 30000 10 10 ] in
  extraBuffer c = 13616 /\
  exists c' : CongestionState,
    updatePosition 31000 11 11 c = Ok c' /\
    0 <= extraBuffer c' <= extraBuffer c + wrap (31000 - lastPosition c).
Proof.
  cbv zeta. split; [reflexivity |].
  apply updatePosition_extraBuffer_growth; vm_compute;
    [reflexivity | discriminate | reflexivity].
Defined.
